(** * widge-label: the labelling client's tables, cursor and persistence

    A shallow embedding of [src/widgelabel.py] (class [LabellingClient]),
    read with the pandas it was written for (before 2.0, where
    [DataFrame.append] exists).

    The pandas tables are lists of rows in table order; a table expression
    [df[df[key] != uid]] is a [filter], [df.append(row, ignore_index=True)]
    adds the row at the end.  The client object is a record that the
    methods thread through a small state monad with Python exceptions; what
    a method assigned before it raises stays assigned.  Writes of the two
    CSV files are recorded, in order, in the [writes] field.

    The widget toolkit itself (buttons, output areas, [display]) is not
    modelled: a method's embedding keeps the statements that read or write
    the client's tables, cursor and files.  The inner function [f] that the
    toolkit calls with the value of the sentiment buttons is embedded as a
    method of its own, [sent_select_f]; the one of the two toggle buttons
    only calls [add_tag] and [remove_tag].  A call of one of them is an
    action like a click. *)

From Stdlib Require Import ZArith String Ascii.
From stdpp Require Import base decidable option list gmap strings.

Open Scope string_scope.
Open Scope list_scope.
Open Scope Z_scope.

(** ** Python values and exceptions *)

(** The exceptions the modelled statements can raise. *)
Inductive pyexn : Type :=
  | IndexError
  | AttributeError
  | RecursionError.

Inductive result (A : Type) : Type :=
  | Ok (a : A)
  | Raise (e : pyexn).
Arguments Ok {A} a.
Arguments Raise {A} e.

(** The values a sentiment option can be: [None] (nothing selected), an
    integer or a string. *)
Inductive pyval : Type :=
  | PyNone
  | PyInt (z : Z)
  | PyStr (s : string).

#[global] Instance pyval_eq_dec : EqDecision pyval.
Proof. solve_decision. Defined.

(** Python's truth value, as tested by [if sentiment:]. *)
Definition truthy (v : pyval) : bool :=
  match v with
  | PyNone => false
  | PyInt z => negb (Z.eqb z 0)
  | PyStr s => negb (String.eqb s EmptyString)
  end.

(** ** Strings *)

(** [s[n:]] for [0 <= n]. *)
Fixpoint str_drop (n : nat) (s : string) : string :=
  match n, s with
  | O, _ => s
  | S n', String _ s' => str_drop n' s'
  | S _, EmptyString => EmptyString
  end.

(** [s[:n]] for [0 <= n]. *)
Fixpoint str_take (n : nat) (s : string) : string :=
  match n, s with
  | O, _ => EmptyString
  | S n', String a s' => String a (str_take n' s')
  | S _, EmptyString => EmptyString
  end.

(** [s.startswith(p)]. *)
Fixpoint str_starts_with (p s : string) : bool :=
  match p, s with
  | EmptyString, _ => true
  | String a p', String b s' => if Ascii.eqb a b then str_starts_with p' s' else false
  | String _ _, EmptyString => false
  end.

(** [p in s] on two strings: [p] occurs in [s] as a substring. *)
Fixpoint str_contains (p s : string) : bool :=
  str_starts_with p s ||
  match s with
  | EmptyString => false
  | String _ s' => str_contains p s'
  end.

(** ** Lists as Python lists *)

(** [x in l]. *)
Definition py_in {A} `{EqDecision A} (x : A) (l : list A) : bool :=
  bool_decide (x ∈ l).

(** [l.remove(x)] once [x in l] is known: the first occurrence goes. *)
Fixpoint py_remove {A} `{EqDecision A} (x : A) (l : list A) : list A :=
  match l with
  | [] => []
  | y :: l' => if decide (x = y) then l' else y :: py_remove x l'
  end.

(** ** Tables *)

(** A cell of the [tags] column: the list that [add_tag] stores, or the text
    that [read_csv] gives back for such a cell. *)
Inductive tags_cell : Type :=
  | TagList (l : list string)
  | TagText (s : string).

#[global] Instance tags_cell_eq_dec : EqDecision tags_cell.
Proof. solve_decision. Defined.

(** A two-column table keyed by the unique id, in row order. *)
Abbreviation table U A := (list (U * A)).

Section Tables.
Context {U : Type} `{EqDecision U}.
Context {A : Type}.
Implicit Types df : table U A.

(** [df[uid_key]], the column of ids. *)
Definition uid_column df : list U := fst <$> df.

(** [uid in df[uid_key].values]. *)
Definition uid_in (uid : U) df : bool :=
  bool_decide (uid ∈ uid_column df).

(** [df[df[uid_key] != uid]]: the rows of the other ids, in order. *)
Definition rows_ne (uid : U) df : table U A :=
  filter (λ r, r.1 ≠ uid) df.

(** [df.loc[df[uid_key] == uid]]: the rows of this id, in order. *)
Definition rows_eq (uid : U) df : table U A :=
  filter (λ r, r.1 = uid) df.

(** [df.append(row, ignore_index=True)]. *)
Definition append_row df (uid : U) (a : A) : table U A :=
  df ++ [(uid, a)].

(** [df.loc[df[uid_key] == uid].iloc[0]]'s second column. *)
Definition first_cell (uid : U) df : option A :=
  snd <$> head (rows_eq uid df).
End Tables.

(** [seq.iloc[i]] for a Python integer [i]: a negative position counts from
    the end, a position outside [-len, len) raises [IndexError]. *)
Definition iloc {A} (l : list A) (i : Z) : result A :=
  let n := Z.of_nat (length l) in
  let j := if i <? 0 then n + i else i in
  if (0 <=? j) && (j <? n) then
    match l !! Z.to_nat j with
    | Some a => Ok a
    | None => Raise IndexError
    end
  else Raise IndexError.

(** ** The client *)

Section Client.
Context {U : Type} `{EqDecision U}.

(** A row of [text_df]: the unique id and the text to label. *)
Record text_row : Type := mk_text_row {
  row_uid : U;
  row_text : string
}.

(** A write of one of the two files: [df.to_csv(file, index=False)] on
    the table as it is at that moment. *)
Inductive write_event : Type :=
  | WriteLabels (df : table U pyval)
  | WriteTags (df : table U tags_cell).

(** The attributes of [LabellingClient] that the modelled methods read or
    assign, and the file writes done so far. *)
Record client : Type := mk_client {
  text_df : list text_row;
  sentiment_df : table U pyval;
  tags_df : table U tags_cell;
  current_text_index : Z;
  current_uid : option U;
  current_sentiment : option (list pyval);
  current_return_later : bool;
  current_not_rel : bool;
  auto_save : bool;
  writes : list write_event
}.

Definition set_sentiment_df (df : table U pyval) (c : client) : client :=
  mk_client (text_df c) df (tags_df c) (current_text_index c) (current_uid c)
    (current_sentiment c) (current_return_later c) (current_not_rel c)
    (auto_save c) (writes c).

Definition set_tags_df (df : table U tags_cell) (c : client) : client :=
  mk_client (text_df c) (sentiment_df c) df (current_text_index c) (current_uid c)
    (current_sentiment c) (current_return_later c) (current_not_rel c)
    (auto_save c) (writes c).

Definition set_current_text_index (i : Z) (c : client) : client :=
  mk_client (text_df c) (sentiment_df c) (tags_df c) i (current_uid c)
    (current_sentiment c) (current_return_later c) (current_not_rel c)
    (auto_save c) (writes c).

Definition set_current_uid (u : U) (c : client) : client :=
  mk_client (text_df c) (sentiment_df c) (tags_df c) (current_text_index c) (Some u)
    (current_sentiment c) (current_return_later c) (current_not_rel c)
    (auto_save c) (writes c).

Definition set_current_sentiment (s : option (list pyval)) (c : client) : client :=
  mk_client (text_df c) (sentiment_df c) (tags_df c) (current_text_index c) (current_uid c)
    s (current_return_later c) (current_not_rel c)
    (auto_save c) (writes c).

Definition set_current_return_later (b : bool) (c : client) : client :=
  mk_client (text_df c) (sentiment_df c) (tags_df c) (current_text_index c) (current_uid c)
    (current_sentiment c) b (current_not_rel c)
    (auto_save c) (writes c).

Definition set_current_not_rel (b : bool) (c : client) : client :=
  mk_client (text_df c) (sentiment_df c) (tags_df c) (current_text_index c) (current_uid c)
    (current_sentiment c) (current_return_later c) b
    (auto_save c) (writes c).

Definition log_write (e : write_event) (c : client) : client :=
  mk_client (text_df c) (sentiment_df c) (tags_df c) (current_text_index c) (current_uid c)
    (current_sentiment c) (current_return_later c) (current_not_rel c)
    (auto_save c) (writes c ++ [e]).

(** *** Methods as state transformers that may raise *)

Definition M (A : Type) : Type := client → result A * client.

#[local] Instance M_ret : MRet M := λ A a c, (Ok a, c).
#[local] Instance M_bind : MBind M := λ A B f m c,
  match m c with
  | (Ok a, c') => f a c'
  | (Raise e, c') => (Raise e, c')
  end.
#[local] Instance M_throw : MThrow pyexn M := λ A e c, (Raise e, c).

(** Read [self]. *)
Definition get : M client := λ c, (Ok c, c).
(** Assign to an attribute of [self]. *)
Definition modify (f : client → client) : M unit := λ c, (Ok tt, f c).
(** A Python expression that may raise. *)
Definition lift {A} (r : result A) : M A := λ c, (r, c).

(** *** Saving *)

(** [save_label_data()] with the default file. *)
Definition save_label_data : M unit :=
  c ← get; modify (log_write (WriteLabels (sentiment_df c))).

(** [save_tags_data()] with the default file. *)
Definition save_tags_data : M unit :=
  c ← get; modify (log_write (WriteTags (tags_df c))).

Definition save_all : M unit :=
  save_label_data;; save_tags_data.

Definition do_auto_save : M unit :=
  c ← get; if auto_save c then save_all else mret tt.

(** *** Tags *)

(** The cell after [if not tag in tmp_tags: tmp_tags.append(tag)].  On a
    text cell [in] is the substring test and [append] does not exist. *)
Definition cell_add (tag : string) (cell : tags_cell) : result tags_cell :=
  match cell with
  | TagList l => Ok (TagList (if py_in tag l then l else l ++ [tag]))
  | TagText s => if str_contains tag s then Ok (TagText s) else Raise AttributeError
  end.

(** The cell after [if tag in tmp_tags: tmp_tags.remove(tag)]. *)
Definition cell_remove (tag : string) (cell : tags_cell) : result tags_cell :=
  match cell with
  | TagList l => Ok (TagList (if py_in tag l then py_remove tag l else l))
  | TagText s => if str_contains tag s then Raise AttributeError else Ok (TagText s)
  end.

(** [tmp_tags == []]. *)
Definition cell_is_empty_list (cell : tags_cell) : bool :=
  match cell with
  | TagList [] => true
  | _ => false
  end.

(** [tag in tmp_tags]. *)
Definition cell_has (tag : string) (cell : tags_cell) : bool :=
  match cell with
  | TagList l => py_in tag l
  | TagText s => str_contains tag s
  end.

(** [self.tags_df.loc[self.tags_df[uid_key] == uid].iloc[0].tags]. *)
Definition first_tags (uid : U) : M tags_cell :=
  c ← get;
  match first_cell uid (tags_df c) with
  | Some cell => mret cell
  | None => mthrow IndexError
  end.

(** [add_tag(uid, tag)].  The body runs inside [with self.out_debug:]; an
    exception that leaves the body is the outcome [Raise] here, whether
    that block then shows and suppresses it or lets it through.  Either
    way the table is as it was and nothing is saved. *)
Definition add_tag (uid : U) (tag : string) : M unit :=
  c ← get;
  tmp_tags ←
    (if uid_in uid (tags_df c) then
       cell ← first_tags uid; lift (cell_add tag cell)
     else mret (TagList [tag]));
  modify (λ c, set_tags_df (rows_ne uid (tags_df c)) c);;
  modify (λ c, set_tags_df (append_row (tags_df c) uid tmp_tags) c);;
  do_auto_save.

(** [remove_tag(uid, tag)], with the same reading of [Raise]. *)
Definition remove_tag (uid : U) (tag : string) : M unit :=
  c ← get;
  (if uid_in uid (tags_df c) then
     cell ← first_tags uid;
     tmp_tags ← lift (cell_remove tag cell);
     modify (λ c, set_tags_df (rows_ne uid (tags_df c)) c);;
     if cell_is_empty_list tmp_tags then mret tt
     else modify (λ c, set_tags_df (append_row (tags_df c) uid tmp_tags) c)
   else mret tt);;
  do_auto_save.

Definition check_tag (c : client) (uid : U) (tag : string) : bool :=
  if uid_in uid (tags_df c) then
    match first_cell uid (tags_df c) with
    | Some cell => cell_has tag cell
    | None => false
    end
  else false.

(** *** The current record *)

(** [set_current_variables(text_index)], without the [hansard_tags] branch
    and the additional columns. *)
Definition set_current_variables (text_index : Z) : M unit :=
  modify (set_current_text_index text_index);;
  c ← get;
  row ← lift (iloc (text_df c) text_index);
  modify (set_current_uid (row_uid row));;
  modify (λ c, set_current_return_later (check_tag c (row_uid row) "return_later") c);;
  modify (λ c, set_current_not_rel (check_tag c (row_uid row) "not_rel") c);;
  c ← get;
  if uid_in (row_uid row) (sentiment_df c) then
    modify (set_current_sentiment (Some (snd <$> rows_eq (row_uid row) (sentiment_df c))))
  else
    modify (set_current_sentiment None).

(** [create_sent_select_subpanel_text_part()]: the refresh of the current
    variables; the widgets it then builds and displays are left out. *)
Definition create_sent_select_subpanel_text_part : M unit :=
  c ← get; set_current_variables (current_text_index c).

(** The body of [f] in [create_sent_select_subpanel_text_part], called
    with the value of the sentiment buttons. *)
Definition sent_select_f (sentiment : pyval) : M pyval :=
  c ← get;
  row ← lift (iloc (text_df c) (current_text_index c));
  let tmp_uid := row_uid row in
  (if truthy sentiment then
     (if uid_in tmp_uid (sentiment_df c) then
        modify (λ c, set_sentiment_df (rows_ne tmp_uid (sentiment_df c)) c)
      else mret tt);;
     modify (λ c, set_sentiment_df (append_row (sentiment_df c) tmp_uid sentiment) c);;
     c ← get;
     if auto_save c then save_label_data else mret tt
   else mret tt);;
  mret sentiment.

(** *** Navigation buttons *)

Definition on_next_clicked : M unit :=
  modify (λ c, set_current_text_index (current_text_index c + 1) c);;
  create_sent_select_subpanel_text_part.

Definition on_prev_clicked : M unit :=
  modify (λ c, set_current_text_index (current_text_index c - 1) c);;
  create_sent_select_subpanel_text_part.

Definition on_save_clicked : M unit := save_all.

Definition on_del_clicked : M unit :=
  c ← get;
  match current_uid c with
  | None => mthrow AttributeError
  | Some uid =>
      modify (λ c, set_sentiment_df (rows_ne uid (sentiment_df c)) c);;
      c ← get;
      (if auto_save c then save_label_data else mret tt);;
      create_sent_select_subpanel_text_part
  end.

(** *** Lookup by id and construction *)

(** [text_df.index[text_df[uid_key] == uid].tolist()]: the positions of
    the rows with this id, counted from [i]. *)
Fixpoint matching_index (uid : U) (i : Z) (df : list text_row) : list Z :=
  match df with
  | [] => []
  | row :: df' =>
      if decide (row_uid row = uid) then i :: matching_index uid (i + 1) df'
      else matching_index uid (i + 1) df'
  end.

(** [find_text_index_by_uid(uid)]: element [0] of that list. *)
Definition find_text_index_by_uid (df : list text_row) (uid : U) : result Z :=
  match matching_index uid 0 df with
  | i :: _ => Ok i
  | [] => Raise IndexError
  end.

(** The last statement of [__init__]: the cursor the client starts with.
    [start_index] is the constructor's argument, [None] by default. *)
Definition init_current_text_index (start_index : option Z)
    (sdf : table U pyval) (tdf : list text_row) : result Z :=
  match start_index with
  | Some i => Ok i
  | None =>
      if 0 <? Z.of_nat (length sdf) then
        match iloc (uid_column sdf) (Z.of_nat (length sdf) - 1) with
        | Ok last_uid_labelled => find_text_index_by_uid tdf last_uid_labelled
        | Raise e => Raise e
        end
      else Ok 0
  end.

(** [__init__]: [text] is the loaded text table; [label_file] and
    [tags_file] are what [read_csv] returns for the two files, [None] when
    [os.path.isfile] is false. *)
Definition init (text : list text_row)
    (label_file : option (table U pyval)) (tags_file : option (table U tags_cell))
    (start_index : option Z) (autosave : bool) : result client :=
  let sdf := default [] label_file in
  let tdf := default [] tags_file in
  match init_current_text_index start_index sdf text with
  | Ok i => Ok (mk_client text sdf tdf i None None false false autosave [])
  | Raise e => Raise e
  end.

(** *** Histories of operations *)

(** A user action on the annotation state. *)
Inductive action : Type :=
  | SetSentiment (v : pyval)
  | ClearSentiment
  | AddTag (uid : U) (tag : string)
  | RemoveTag (uid : U) (tag : string)
  | Next
  | Prev
  | Save.

Definition perform (a : action) : M unit :=
  match a with
  | SetSentiment v => sent_select_f v;; mret tt
  | ClearSentiment => on_del_clicked
  | AddTag uid tag => add_tag uid tag
  | RemoveTag uid tag => remove_tag uid tag
  | Next => on_next_clicked
  | Prev => on_prev_clicked
  | Save => on_save_clicked
  end.

(** The client after an action, whether it returned or raised. *)
Definition after (a : action) (c : client) : client := (perform a c).2.

(** The client after a sequence of actions. *)
Fixpoint run (acts : list action) (c : client) : client :=
  match acts with
  | [] => c
  | a :: acts' => run acts' (after a c)
  end.

(** The states the client passes through from a start state. *)
Inductive reachable (c0 : client) : client → Prop :=
  | reachable_start : reachable c0 c0
  | reachable_step c a : reachable c0 c → reachable c0 (after a c).
End Client.
Arguments text_row : clear implicits.
Arguments client : clear implicits.
Arguments write_event : clear implicits.
Arguments action : clear implicits.

(** ** Highlighting *)

(** What [re.search(regex, str)] gives for a fixed pattern: the span
    [(match.start(), match.end())] of the leftmost match, or [None]. *)
Definition regex : Type := string → option (nat * nat).

Definition dquote : string := String "034"%char EmptyString.

(** ["<span style=\"color:{}\">**".format(emphasis_color)]. *)
Definition span_open (color : string) : string :=
  "<span style=" +:+ dquote +:+ "color:" +:+ color +:+ dquote +:+ ">**".

Definition span_close : string := "**</span>".

(** [add_match_formatting(str, regex)].  The method calls itself on the text
    after the match; [depth] is the number of nested calls the interpreter
    still allows, and the call that exceeds it raises [RecursionError]. *)
Fixpoint add_match_formatting (depth : nat) (color : string) (re : regex)
    (str : string) : result string :=
  match depth with
  | O => Raise RecursionError
  | S depth' =>
      match re str with
      | Some (m_start, m_end) =>
          if (0 <? String.length (str_drop m_end str))%nat then
            match add_match_formatting depth' color re (str_drop m_end str) with
            | Ok rest =>
                Ok (str_take m_start str +:+ span_open color
                    +:+ str_take (m_end - m_start) (str_drop m_start str)
                    +:+ span_close +:+ rest)
            | Raise e => Raise e
            end
          else Ok str
      | None => Ok str
      end
  end.

(** The position of the first occurrence of [p] in [s], counted from [i]. *)
Fixpoint find_from (p s : string) (i : nat) : option nat :=
  if str_starts_with p s then Some i
  else match s with
       | EmptyString => None
       | String _ s' => find_from p s' (S i)
       end.

(** [re.search] for a pattern without metacharacters: the first occurrence
    of the pattern's text.  The empty pattern matches at position 0. *)
Definition literal (p : string) : regex := λ s,
  match find_from p s 0 with
  | Some i => Some (i, (i + String.length p)%nat)
  | None => None
  end.

(** ** The tags file *)

(** [repr] of a character inside a string quoted with [q]. *)
Definition hex_digit (n : nat) : ascii :=
  default "0"%char (String.get n "0123456789abcdef").

Definition py_repr_char (q c : ascii) : string :=
  let n := nat_of_ascii c in
  if Ascii.eqb c "\"%char then "\\"
  else if Ascii.eqb c q then String "\"%char (String q EmptyString)
  else if (n =? 10)%nat then "\n"
  else if (n =? 13)%nat then "\r"
  else if (n =? 9)%nat then "\t"
  else if ((n <? 32) || (n =? 127))%nat then
    String "\"%char (String "x"%char
      (String (hex_digit (n / 16)) (String (hex_digit (n mod 16)) EmptyString)))
  else String c EmptyString.

Fixpoint py_repr_body (q : ascii) (s : string) : string :=
  match s with
  | EmptyString => EmptyString
  | String c s' => py_repr_char q c +:+ py_repr_body q s'
  end.

(** [repr(s)] of a string of ASCII characters: single quotes, unless the
    string has a single quote and no double quote. *)
Definition py_repr (s : string) : string :=
  let q := if str_contains "'" s && negb (str_contains dquote s)
           then "034"%char else "'"%char in
  String q (py_repr_body q s +:+ String q EmptyString).

Fixpoint py_join (sep : string) (l : list string) : string :=
  match l with
  | [] => EmptyString
  | [x] => x
  | x :: l' => x +:+ sep +:+ py_join sep l'
  end.

(** [str(l)] of a list of strings, which is what [to_csv] writes for it. *)
Definition py_str_list (l : list string) : string :=
  "[" +:+ py_join ", " (py_repr <$> l) +:+ "]".

(** The text [to_csv] writes for a cell of the [tags] column. *)
Definition cell_to_csv (cell : tags_cell) : string :=
  match cell with
  | TagList l => py_str_list l
  | TagText s => s
  end.

Section TagsFile.
Context {U : Type}.

(** The text [to_csv] writes for an id, and the values [read_csv] infers
    for the id column from the texts of its fields. *)
Variable uid_to_csv : U → string.
Variable read_uid_column : list string → list U.

(** The data rows of the tags file, one pair of field texts per row; the
    header line holds the two column names. *)
Definition tags_csv : Type := list (string * string).

(** [tags_df.to_csv(file, index=False)], as in [save_tags_data]. *)
Definition to_csv (df : table U tags_cell) : tags_csv :=
  (λ r, (uid_to_csv r.1, cell_to_csv r.2)) <$> df.

(** [pd.read_csv(file, index_col=False)], as in [load_tags_data], on a
    file whose [tags] fields are list renderings: such a field is neither
    a number nor a missing value, and the column comes back as text. *)
Definition read_csv (file : tags_csv) : table U tags_cell :=
  zip (read_uid_column (fst <$> file)) (TagText <$> (snd <$> file)).

(** [save_tags_data(file)] then [load_tags_data(file)] in a fresh client. *)
Definition save_then_load (df : table U tags_cell) : table U tags_cell :=
  read_csv (to_csv df).
End TagsFile.

(** ** Replaying tag calls on a plain set *)

(** A call of [add_tag] or [remove_tag] on a fixed id. *)
Inductive tag_op : Type :=
  | OpAdd (tag : string)
  | OpRemove (tag : string).

(** The spec's reference model: add inserts if absent, remove deletes if
    present. *)
Definition plain_set_step (s : gset string) (op : tag_op) : gset string :=
  match op with
  | OpAdd tag => s ∪ {[tag]}
  | OpRemove tag => s ∖ {[tag]}
  end.

Definition plain_set_replay (ops : list tag_op) (s : gset string) : gset string :=
  foldl plain_set_step s ops.

Section TagCalls.
Context {U : Type} `{EqDecision U}.

Definition tag_call (uid : U) (op : tag_op) : M unit :=
  match op with
  | OpAdd tag => add_tag uid tag
  | OpRemove tag => remove_tag uid tag
  end.

Fixpoint tag_calls (uid : U) (ops : list tag_op) : M unit :=
  match ops with
  | [] => λ c, (Ok tt, c)
  | op :: ops' => λ c,
      match tag_call uid op c with
      | (Ok _, c') => tag_calls uid ops' c'
      | (Raise e, c') => (Raise e, c')
      end
  end.

(** The tag set the table holds for an id: the elements of the list in
    the id's row, nothing when the id has no row. *)
Definition held_tags (uid : U) (df : table U tags_cell) : gset string :=
  match first_cell uid df with
  | Some (TagList l) => list_to_set l
  | _ => ∅
  end.

(** The tables [add_tag] and [remove_tag] build: one row per id, each
    holding a non-empty list without repetition. *)
Definition tags_wf (df : table U tags_cell) : Prop :=
  NoDup (uid_column df) ∧
  Forall (λ r, ∃ l, r.2 = TagList l ∧ l ≠ [] ∧ NoDup l) df.
End TagCalls.

(** ** The history of the sentiment table *)

Section SentimentHistory.
Context {U : Type} `{EqDecision U}.

(** What an action asks of the sentiment table. *)
Inductive sentiment_event : Type :=
  | Labelled (uid : U) (v : pyval)
  | Reset (uid : U).

(** The event of an action issued on client [c]: a selected value that
    is stored labels the record under the cursor, the reset button resets
    the current id, everything else leaves the table alone. *)
Definition sentiment_event_of (a : action U) (c : client U) : option sentiment_event :=
  match a with
  | SetSentiment v =>
      match iloc (text_df c) (current_text_index c) with
      | Ok row => if truthy v then Some (Labelled (row_uid row) v) else None
      | Raise _ => None
      end
  | ClearSentiment => Reset <$> current_uid c
  | _ => None
  end.




(** The table the events build, by the table expressions of the two
    handlers. *)
Definition apply_event (df : table U pyval) (e : sentiment_event) : table U pyval :=
  match e with
  | Labelled uid v => append_row (rows_ne uid df) uid v
  | Reset uid => rows_ne uid df
  end.
End SentimentHistory.
Arguments sentiment_event : clear implicits.

(** ** A small store *)

Definition demo_text : list (text_row string) :=
  [mk_text_row "A" "first text"; mk_text_row "B" "second text";
   mk_text_row "C" "third text"].

(** The client on [demo_text] right after construction without files, with
    [start_index=0]. *)
Definition demo_client (autosave : bool) : client string :=
  mk_client demo_text [] [] 0 None None false false autosave [].

(** ** What the two files hold *)

Section Files.
Context {U : Type}.

(** The sentiment table in the label file after the writes logged, each
    [to_csv] replacing the file's content; [before] is the table in the
    file before them (the empty table when there is no file: the next
    constructor then starts from the empty table). *)
Fixpoint label_file_after (before : table U pyval) (ws : list (write_event U))
    : table U pyval :=
  match ws with
  | [] => before
  | WriteLabels df :: ws' => label_file_after df ws'
  | WriteTags _ :: ws' => label_file_after before ws'
  end.

(** The same for the tags file. *)
Fixpoint tags_file_after (before : table U tags_cell) (ws : list (write_event U))
    : table U tags_cell :=
  match ws with
  | [] => before
  | WriteLabels _ :: ws' => tags_file_after before ws'
  | WriteTags df :: ws' => tags_file_after df ws'
  end.
End Files.

(** ** The government test of the Hansard mode *)

(** An ASCII capital letter as its small letter, any other character as it
    is. *)
Definition ascii_lower (c : ascii) : ascii :=
  let n := nat_of_ascii c in
  if ((65 <=? n) && (n <=? 90))%nat then ascii_of_nat (n + 32) else c.

Fixpoint str_lower (s : string) : string :=
  match s with
  | EmptyString => EmptyString
  | String c s' => String (ascii_lower c) (str_lower s')
  end.

(** [bool(re.search("(?i)shadow|opposition", post_name))] on a post name of
    ASCII characters: one of the two words occurs, letter case ignored. *)
Definition opp_post (post_name : string) : bool :=
  str_contains "shadow" (str_lower post_name)
  || str_contains "opposition" (str_lower post_name).

(** [check_is_in_gov], as a function of [post_name], the [str] of the
    record's [post_name] column ([nan] for a missing value). *)
Definition check_is_in_gov (post_name : string) : bool :=
  negb (String.eqb post_name "nan") && negb (opp_post post_name).

(** * Properties *)

(** ** Tables *)

Section TableFacts.
Context {U : Type} `{EqDecision U} {A : Type}.
Implicit Types (df : table U A) (uid : U).

Lemma uid_in_true uid df : uid_in uid df = true ↔ uid ∈ uid_column df.
Proof. unfold uid_in. apply bool_decide_eq_true. Qed.

Lemma uid_in_false uid df : uid_in uid df = false ↔ uid ∉ uid_column df.
Proof. unfold uid_in. apply bool_decide_eq_false. Qed.

Lemma uid_column_app df1 df2 :
  uid_column (df1 ++ df2) = uid_column df1 ++ uid_column df2.
Proof. apply fmap_app. Qed.

Lemma elem_of_uid_column_rows_ne uid u df :
  u ∈ uid_column (rows_ne uid df) ↔ u ≠ uid ∧ u ∈ uid_column df.
Proof.
  unfold uid_column, rows_ne. rewrite !list_elem_of_fmap. split.
  - intros [r [-> Hr]]. apply list_elem_of_filter in Hr as [Hne Hr]. eauto.
  - intros [Hne [r [-> Hr]]]. exists r. split; [done|].
    apply list_elem_of_filter. done.
Qed.

Lemma uid_in_rows_ne uid df : uid_in uid (rows_ne uid df) = false.
Proof.
  apply uid_in_false. rewrite elem_of_uid_column_rows_ne. tauto.
Qed.

Lemma NoDup_uid_column_rows_ne uid df :
  NoDup (uid_column df) → NoDup (uid_column (rows_ne uid df)).
Proof.
  unfold uid_column, rows_ne. induction df as [|r df IH]; [done|].
  rewrite fmap_cons, NoDup_cons. intros [Hr Hdf].
  rewrite filter_cons. case_decide.
  - rewrite fmap_cons, NoDup_cons. split; [|auto].
    intros Hin. apply Hr. apply list_elem_of_fmap in Hin as [r' [-> Hin]].
    apply list_elem_of_filter in Hin as [_ Hin].
    apply list_elem_of_fmap. eauto.
  - auto.
Qed.

(** Deleting the rows of an id and appending one row for it keeps the ids
    unique. *)
Lemma NoDup_uid_column_upsert uid a df :
  NoDup (uid_column df) →
  NoDup (uid_column (append_row (rows_ne uid df) uid a)).
Proof.
  intros Hnd. unfold append_row. rewrite uid_column_app. apply NoDup_app.
  split; [by apply NoDup_uid_column_rows_ne|]. split.
  - intros u Hu Hu'. apply elem_of_uid_column_rows_ne in Hu as [Hne _].
    simpl in Hu'. apply list_elem_of_singleton in Hu'. done.
  - simpl. apply NoDup_singleton.
Qed.

Lemma rows_eq_rows_ne uid df : rows_eq uid (rows_ne uid df) = [].
Proof.
  unfold rows_eq, rows_ne. induction df as [|r df IH]; [done|].
  rewrite filter_cons. case_decide as Hr; [|done].
  rewrite filter_cons. case_decide; done.
Qed.

Lemma rows_eq_upsert uid a df :
  rows_eq uid (append_row (rows_ne uid df) uid a) = [(uid, a)].
Proof.
  unfold append_row, rows_eq. rewrite filter_app.
  fold (rows_eq uid (rows_ne uid df)). rewrite rows_eq_rows_ne. simpl.
  rewrite filter_cons. simpl. case_decide; done.
Qed.

Lemma first_cell_upsert uid a df :
  first_cell uid (append_row (rows_ne uid df) uid a) = Some a.
Proof. unfold first_cell. by rewrite rows_eq_upsert. Qed.

Lemma uid_in_upsert uid a df :
  uid_in uid (append_row (rows_ne uid df) uid a) = true.
Proof.
  apply uid_in_true. unfold append_row. rewrite uid_column_app.
  apply elem_of_app. right. simpl. apply list_elem_of_singleton. done.
Qed.

Lemma first_cell_None uid df : first_cell uid df = None ↔ uid ∉ uid_column df.
Proof.
  unfold first_cell, rows_eq, uid_column. induction df as [|r df IH].
  - simpl. split; [intros _; apply not_elem_of_nil|done].
  - rewrite filter_cons, fmap_cons, not_elem_of_cons. case_decide as Hr.
    + simpl. split; [done|]. intros [Hne _]. by destruct Hne.
    + rewrite IH. split; [intros ?; split; [congruence|done]|tauto].
Qed.

Lemma first_cell_Some_elem uid a df :
  first_cell uid df = Some a → (uid, a) ∈ df.
Proof.
  unfold first_cell, rows_eq. induction df as [|r df IH]; [done|].
  rewrite filter_cons. case_decide as Hr.
  - simpl. intros [= <-]. destruct r; simpl in *; subst. apply list_elem_of_here.
  - intros Hh. apply list_elem_of_further. auto.
Qed.

Lemma uid_in_first_cell uid df :
  uid_in uid df = true → ∃ a, first_cell uid df = Some a.
Proof.
  intros Hin%uid_in_true. destruct (first_cell uid df) as [a|] eqn:E; [eauto|].
  apply first_cell_None in E. done.
Qed.

(** Another id's row is not touched by an upsert. *)
Lemma first_cell_upsert_ne uid u a df :
  u ≠ uid → first_cell u (append_row (rows_ne uid df) uid a) = first_cell u df.
Proof.
  intros Hne. unfold first_cell, rows_eq, append_row, rows_ne.
  rewrite filter_app. rewrite (filter_cons _ (uid, a)). simpl.
  case_decide; [congruence|]. rewrite filter_nil, app_nil_r.
  induction df as [|r df IH]; [done|].
  rewrite !filter_cons.
  destruct (decide (r.1 ≠ uid)) as [H1|H1%dec_stable];
    destruct (decide (r.1 = u)) as [H2|H2];
    rewrite ?filter_cons; repeat case_decide; try done; congruence.
Qed.
End TableFacts.

(** ** Python lists without repetition *)

Section ListFacts.
Context {A : Type} `{EqDecision A}.
Implicit Types (x y : A) (l : list A).

Lemma py_in_true x l : py_in x l = true ↔ x ∈ l.
Proof. apply bool_decide_eq_true. Qed.

Lemma py_in_false x l : py_in x l = false ↔ x ∉ l.
Proof. apply bool_decide_eq_false. Qed.

Lemma elem_of_py_remove x y l :
  NoDup l → y ∈ py_remove x l ↔ y ≠ x ∧ y ∈ l.
Proof.
  induction l as [|z l IH]; simpl.
  - intros _. split; [by intros ?%elem_of_nil|by intros [_ ?%elem_of_nil]].
  - rewrite NoDup_cons. intros [Hz Hl]. case_decide as Hx.
    + subst z. rewrite elem_of_cons. split.
      * intros Hy. split; [|tauto]. intros ->. done.
      * intros [Hne [?|?]]; done.
    + rewrite !elem_of_cons, IH by done. split.
      * intros [->|[? ?]]; [split; [congruence|tauto]|tauto].
      * intros [? [?|?]]; tauto.
Qed.

Lemma NoDup_py_remove x l : NoDup l → NoDup (py_remove x l).
Proof.
  induction l as [|z l IH]; simpl; [done|].
  rewrite NoDup_cons. intros [Hz Hl]. case_decide; [done|].
  apply NoDup_cons. split; [|auto].
  rewrite elem_of_py_remove by done. tauto.
Qed.

Lemma NoDup_snoc_fresh x l : NoDup l → x ∉ l → NoDup (l ++ [x]).
Proof.
  intros Hl Hx. apply NoDup_app. split; [done|]. split.
  - intros y Hy ->%list_elem_of_singleton. done.
  - apply NoDup_singleton.
Qed.
End ListFacts.

(** ** The tag methods *)

(** Unfold the monad of the methods down to pairs. *)
Ltac run_M :=
  unfold mbind, M_bind, mret, M_ret, mthrow, M_throw, get, modify, lift; simpl.

Section TagFacts.
Context {U : Type} `{EqDecision U}.
Implicit Types (c : client U) (uid : U) (tag : string).

Lemma do_auto_save_run c :
  do_auto_save c =
    (Ok tt,
     if auto_save c
     then log_write (WriteTags (tags_df c)) (log_write (WriteLabels (sentiment_df c)) c)
     else c).
Proof.
  unfold do_auto_save, save_all, save_label_data, save_tags_data.
  run_M. destruct (auto_save c); reflexivity.
Qed.

Lemma do_auto_save_tags_df c : tags_df (do_auto_save c).2 = tags_df c.
Proof. rewrite do_auto_save_run. simpl. by destruct (auto_save c). Qed.

Lemma do_auto_save_sentiment_df c :
  sentiment_df (do_auto_save c).2 = sentiment_df c.
Proof. rewrite do_auto_save_run. simpl. by destruct (auto_save c). Qed.

Lemma do_auto_save_Ok c : (do_auto_save c).1 = Ok tt.
Proof. by rewrite do_auto_save_run. Qed.

(** [add_tag] in one piece: the cell it computes, then the upsert and the
    autosave; the table is untouched when the cell computation raises. *)
Lemma add_tag_run uid tag c :
  add_tag uid tag c =
    match (if uid_in uid (tags_df c) then
             match first_cell uid (tags_df c) with
             | Some cell => cell_add tag cell
             | None => Raise IndexError
             end
           else Ok (TagList [tag])) with
    | Ok tmp_tags =>
        do_auto_save (set_tags_df (append_row (rows_ne uid (tags_df c)) uid tmp_tags) c)
    | Raise e => (Raise e, c)
    end.
Proof.
  unfold add_tag, first_tags. run_M.
  destruct (uid_in uid (tags_df c)); run_M; [|done].
  destruct (first_cell uid (tags_df c)) as [cell|]; run_M; [|done].
  destruct (cell_add tag cell); done.
Qed.

(** [remove_tag] in one piece. *)
Lemma remove_tag_run uid tag c :
  remove_tag uid tag c =
    if uid_in uid (tags_df c) then
      match first_cell uid (tags_df c) with
      | Some cell =>
          match cell_remove tag cell with
          | Ok tmp_tags =>
              do_auto_save
                (if cell_is_empty_list tmp_tags
                 then set_tags_df (rows_ne uid (tags_df c)) c
                 else set_tags_df (append_row (rows_ne uid (tags_df c)) uid tmp_tags) c)
          | Raise e => (Raise e, c)
          end
      | None => (Raise IndexError, c)
      end
    else do_auto_save c.
Proof.
  unfold remove_tag, first_tags. run_M.
  destruct (uid_in uid (tags_df c)); run_M; [|done].
  destruct (first_cell uid (tags_df c)) as [cell|]; run_M; [|done].
  destruct (cell_remove tag cell) as [tmp|]; run_M; [|done].
  destruct (cell_is_empty_list tmp); done.
Qed.

Lemma tags_wf_nil : tags_wf (U:=U) [].
Proof. split; [apply NoDup_nil_2|apply Forall_nil_2]. Qed.

Lemma tags_wf_rows_ne uid (df : table U tags_cell) :
  tags_wf df → tags_wf (rows_ne uid df).
Proof.
  intros [Hnd Hall]. split; [by apply NoDup_uid_column_rows_ne|].
  unfold rows_ne. rewrite Forall_forall in *. intros r Hr.
  apply list_elem_of_filter in Hr as [_ Hr]. auto.
Qed.

Lemma tags_wf_upsert uid l (df : table U tags_cell) :
  tags_wf df → l ≠ [] → NoDup l →
  tags_wf (append_row (rows_ne uid df) uid (TagList l)).
Proof.
  intros Hwf Hl Hnd. split; [apply NoDup_uid_column_upsert, Hwf|].
  unfold append_row. apply Forall_app. split.
  - by apply tags_wf_rows_ne.
  - apply Forall_singleton. simpl. eauto.
Qed.

Lemma tags_wf_first_cell uid cell (df : table U tags_cell) :
  tags_wf df → first_cell uid df = Some cell →
  ∃ l, cell = TagList l ∧ l ≠ [] ∧ NoDup l.
Proof.
  intros [_ Hall] Hc%first_cell_Some_elem.
  rewrite Forall_forall in Hall. apply (Hall _ Hc).
Qed.

Lemma held_tags_absent uid (df : table U tags_cell) :
  uid_in uid df = false → held_tags uid df = ∅.
Proof.
  intros Hin%uid_in_false%first_cell_None. unfold held_tags. by rewrite Hin.
Qed.

(** In a well-formed table an id has a row exactly when its tag set is
    not empty. *)
Lemma tags_wf_uid_in uid (df : table U tags_cell) :
  tags_wf df → uid_in uid df = true ↔ held_tags uid df ≠ ∅.
Proof.
  intros Hwf. split.
  - intros [cell Hc]%uid_in_first_cell.
    destruct (tags_wf_first_cell _ _ _ Hwf Hc) as (l & -> & Hl & _).
    unfold held_tags. rewrite Hc. destruct l as [|t l]; [done|].
    intros He. assert (t ∈ (∅ : gset string)) as Ht; [|set_solver+ Ht].
    rewrite <- He. set_solver+.
  - intros Hne. destruct (uid_in uid df) eqn:E; [done|].
    by apply held_tags_absent in E.
Qed.

Lemma held_tags_upsert uid l (df : table U tags_cell) :
  held_tags uid (append_row (rows_ne uid df) uid (TagList l)) = list_to_set l.
Proof. unfold held_tags. by rewrite first_cell_upsert. Qed.

(** One call: it returns, the table stays well-formed, and the set it
    holds for the id moves as the plain set does. *)
Lemma tag_call_step uid op c :
  tags_wf (tags_df c) →
  (tag_call uid op c).1 = Ok tt ∧
  tags_wf (tags_df (tag_call uid op c).2) ∧
  held_tags uid (tags_df (tag_call uid op c).2)
    = plain_set_step (held_tags uid (tags_df c)) op.
Proof.
  intros Hwf. destruct op as [tag|tag]; simpl.
  - (* add_tag *)
    rewrite add_tag_run. destruct (uid_in uid (tags_df c)) eqn:Hin.
    + destruct (uid_in_first_cell _ _ Hin) as [cell Hc]. rewrite Hc.
      destruct (tags_wf_first_cell _ _ _ Hwf Hc) as (l & -> & Hl & Hnd).
      simpl. rewrite do_auto_save_Ok, do_auto_save_tags_df. simpl.
      rewrite held_tags_upsert. unfold held_tags. rewrite Hc.
      destruct (py_in tag l) eqn:Ht.
      * apply py_in_true in Ht. split; [done|]. split.
        -- by apply tags_wf_upsert.
        -- simpl. apply set_eq. intros y.
           rewrite elem_of_union, elem_of_singleton, !elem_of_list_to_set.
           split; [tauto|]. by intros [?| ->].
      * apply py_in_false in Ht. split; [done|]. split.
        -- apply tags_wf_upsert; [done| |by apply NoDup_snoc_fresh].
           by destruct l.
        -- by rewrite list_to_set_snoc_L.
    + rewrite do_auto_save_Ok, do_auto_save_tags_df. simpl.
      rewrite held_tags_upsert, (held_tags_absent _ _ Hin).
      split; [done|]. split.
      * apply tags_wf_upsert; [done|done|apply NoDup_singleton].
      * set_solver+.
  - (* remove_tag *)
    rewrite remove_tag_run. destruct (uid_in uid (tags_df c)) eqn:Hin.
    + destruct (uid_in_first_cell _ _ Hin) as [cell Hc]. rewrite Hc.
      destruct (tags_wf_first_cell _ _ _ Hwf Hc) as (l & -> & Hl & Hnd).
      simpl. rewrite do_auto_save_Ok, do_auto_save_tags_df.
      split; [done|].
      assert (Hset : list_to_set (if py_in tag l then py_remove tag l else l)
                     =@{gset string} list_to_set l ∖ {[tag]}).
      { destruct (py_in tag l) eqn:Ht.
        - apply set_eq. intros y.
          rewrite elem_of_list_to_set, elem_of_py_remove by done.
          rewrite elem_of_difference, elem_of_singleton, elem_of_list_to_set. tauto.
        - apply py_in_false in Ht. apply set_eq. intros y.
          rewrite elem_of_difference, elem_of_singleton, elem_of_list_to_set.
          split; [|tauto]. intros Hy. split; [done|]. by intros ->. }
      assert (Hnd' : NoDup (if py_in tag l then py_remove tag l else l)).
      { destruct (py_in tag l); [by apply NoDup_py_remove|done]. }
      unfold held_tags at 2. rewrite Hc. rewrite <- Hset.
      destruct (if py_in tag l then py_remove tag l else l) as [|t l'] eqn:El;
        simpl.
      * split; [by apply tags_wf_rows_ne|].
        apply held_tags_absent, uid_in_rows_ne.
      * rewrite held_tags_upsert. split; [|done].
        apply tags_wf_upsert; done.
    + rewrite do_auto_save_Ok, do_auto_save_tags_df.
      rewrite (held_tags_absent _ _ Hin). split; [done|]. split; [done|].
      simpl. apply set_eq. intros y. rewrite elem_of_difference.
      split; [by intros ?%not_elem_of_empty|by intros [?%not_elem_of_empty _]].
Qed.

Lemma tag_calls_run uid ops c :
  tags_wf (tags_df c) →
  (tag_calls uid ops c).1 = Ok tt ∧
  tags_wf (tags_df (tag_calls uid ops c).2) ∧
  held_tags uid (tags_df (tag_calls uid ops c).2)
    = plain_set_replay ops (held_tags uid (tags_df c)).
Proof.
  revert c. induction ops as [|op ops IH]; intros c Hwf; simpl; [done|].
  destruct (tag_call_step uid op c Hwf) as (Hok & Hwf' & Hheld).
  destruct (tag_call uid op c) as [r c'] eqn:E. simpl in *. subst r.
  unfold plain_set_replay in *. simpl. rewrite <- Hheld. by apply IH.
Qed.

(** C1. For an id and a finite sequence of [add_tag]/[remove_tag] calls on
    it, issued on a client whose tags table is well-formed (the empty table
    the constructor builds is): every call returns; the tag set the table
    holds for the id afterwards is the one obtained by replaying the calls
    on a plain set, started from the set held before; and the table has a
    row for the id exactly when that set is not empty. *)
Theorem tag_calls_replay_plain_set uid ops c :
  tags_wf (tags_df c) →
  ∃ c', tag_calls uid ops c = (Ok tt, c') ∧
        held_tags uid (tags_df c')
          = plain_set_replay ops (held_tags uid (tags_df c)) ∧
        (uid_in uid (tags_df c') = true
           ↔ plain_set_replay ops (held_tags uid (tags_df c)) ≠ ∅).
Proof.
  intros Hwf. destruct (tag_calls_run uid ops c Hwf) as (Hok & Hwf' & Hheld).
  exists (tag_calls uid ops c).2. split; [|split; [done|]].
  - rewrite <- Hok. apply surjective_pairing.
  - rewrite <- Hheld. by apply tags_wf_uid_in.
Qed.
End TagFacts.

(** ** The current record and the sentiment handlers *)

Section SentimentFacts.
Context {U : Type} `{EqDecision U}.
Implicit Types (c : client U) (uid : U) (v : pyval).

Lemma rows_ne_absent {A} uid (df : table U A) :
  uid_in uid df = false → rows_ne uid df = df.
Proof.
  intros Hin%uid_in_false. unfold rows_ne, uid_column in *.
  induction df as [|r df IH]; [done|].
  rewrite fmap_cons, not_elem_of_cons in Hin. destruct Hin as [Hr Hdf].
  rewrite filter_cons. case_decide as Hd; [by rewrite IH|]. congruence.
Qed.

(** [set_current_variables] in one piece. *)
Lemma set_current_variables_run i c :
  set_current_variables i c =
    match iloc (text_df c) i with
    | Ok row =>
        let uid := row_uid row in
        let c1 := set_current_uid uid (set_current_text_index i c) in
        let c2 := set_current_return_later (check_tag c1 uid "return_later") c1 in
        let c3 := set_current_not_rel (check_tag c2 uid "not_rel") c2 in
        (Ok tt,
         set_current_sentiment
           (if uid_in uid (sentiment_df c)
            then Some (snd <$> rows_eq uid (sentiment_df c)) else None) c3)
    | Raise e => (Raise e, set_current_text_index i c)
    end.
Proof.
  unfold set_current_variables. run_M.
  destruct (iloc (text_df c) i) as [row|e]; [|done]. simpl.
  destruct (uid_in (row_uid row) (sentiment_df c)); done.
Qed.

(** The refresh assigns the cursor and the [current_*] attributes only. *)
Lemma set_current_variables_frame i c :
  let c' := (set_current_variables i c).2 in
  text_df c' = text_df c ∧ sentiment_df c' = sentiment_df c ∧
  tags_df c' = tags_df c ∧ auto_save c' = auto_save c ∧
  writes c' = writes c ∧ current_text_index c' = i.
Proof.
  rewrite set_current_variables_run.
  destruct (iloc (text_df c) i); simpl; done.
Qed.

(** [sent_select_f] in one piece. *)
Lemma sent_select_f_run v c :
  sent_select_f v c =
    match iloc (text_df c) (current_text_index c) with
    | Ok row =>
        if truthy v then
          let df := append_row (rows_ne (row_uid row) (sentiment_df c)) (row_uid row) v in
          (Ok v, if auto_save c
                 then log_write (WriteLabels df) (set_sentiment_df df c)
                 else set_sentiment_df df c)
        else (Ok v, c)
    | Raise e => (Raise e, c)
    end.
Proof.
  unfold sent_select_f, save_label_data. run_M.
  destruct (iloc (text_df c) (current_text_index c)) as [row|e]; [|done]. simpl.
  destruct (truthy v); [|done]. simpl.
  destruct (uid_in (row_uid row) (sentiment_df c)) eqn:Hin; simpl.
  - destruct (auto_save c); done.
  - rewrite (rows_ne_absent _ _ Hin). destruct (auto_save c); done.
Qed.

(** [on_del_clicked] up to the refresh it ends with. *)
Lemma on_del_clicked_run c :
  on_del_clicked c =
    match current_uid c with
    | Some uid =>
        let df := rows_ne uid (sentiment_df c) in
        create_sent_select_subpanel_text_part
          (if auto_save c
           then log_write (WriteLabels df) (set_sentiment_df df c)
           else set_sentiment_df df c)
    | None => (Raise AttributeError, c)
    end.
Proof.
  unfold on_del_clicked, save_label_data. run_M.
  destruct (current_uid c) as [uid|]; [|done]. simpl.
  destruct (auto_save c); done.
Qed.

Lemma create_sent_select_subpanel_text_part_run c :
  create_sent_select_subpanel_text_part c
    = set_current_variables (current_text_index c) c.
Proof. done. Qed.

(** What an action does to the sentiment table is its event. *)
Lemma after_sentiment_df a c :
  sentiment_df (after a c)
    = from_option (apply_event (sentiment_df c)) (sentiment_df c)
        (sentiment_event_of a c).
Proof.
  unfold after. destruct a as [v| |uid tag|uid tag| | |]; simpl.
  - unfold mbind, M_bind, mret, M_ret. rewrite sent_select_f_run.
    destruct (iloc (text_df c) (current_text_index c)) as [row|e]; [|done].
    destruct (truthy v); [|done]. simpl. destruct (auto_save c); done.
  - rewrite on_del_clicked_run. destruct (current_uid c) as [uid|]; [|done].
    simpl. rewrite create_sent_select_subpanel_text_part_run.
    destruct (set_current_variables_frame
      (current_text_index (if auto_save c
         then log_write (WriteLabels (rows_ne uid (sentiment_df c)))
                (set_sentiment_df (rows_ne uid (sentiment_df c)) c)
         else set_sentiment_df (rows_ne uid (sentiment_df c)) c))
      (if auto_save c
         then log_write (WriteLabels (rows_ne uid (sentiment_df c)))
                (set_sentiment_df (rows_ne uid (sentiment_df c)) c)
         else set_sentiment_df (rows_ne uid (sentiment_df c)) c))
      as (_ & -> & _).
    destruct (auto_save c); done.
  - rewrite add_tag_run.
    destruct (if uid_in uid (tags_df c) then _ else _); [|done].
    by rewrite do_auto_save_sentiment_df.
  - rewrite remove_tag_run. destruct (uid_in uid (tags_df c)).
    + destruct (first_cell uid (tags_df c)) as [cell|]; [|done].
      destruct (cell_remove tag cell) as [tmp|]; [|done].
      rewrite do_auto_save_sentiment_df. by destruct (cell_is_empty_list tmp).
    + by rewrite do_auto_save_sentiment_df.
  - unfold on_next_clicked. run_M.
    rewrite create_sent_select_subpanel_text_part_run.
    by destruct (set_current_variables_frame
      (current_text_index (set_current_text_index (current_text_index c + 1) c))
      (set_current_text_index (current_text_index c + 1) c)) as (_ & -> & _).
  - unfold on_prev_clicked. run_M.
    rewrite create_sent_select_subpanel_text_part_run.
    by destruct (set_current_variables_frame
      (current_text_index (set_current_text_index (current_text_index c - 1) c))
      (set_current_text_index (current_text_index c - 1) c)) as (_ & -> & _).
  - unfold on_save_clicked, save_all, save_label_data, save_tags_data. run_M. done.
Qed.

Lemma NoDup_apply_event (df : table U pyval) e :
  NoDup (uid_column df) → NoDup (uid_column (apply_event df e)).
Proof.
  destruct e; simpl;
    [apply NoDup_uid_column_upsert|apply NoDup_uid_column_rows_ne].
Qed.

Lemma after_NoDup a c :
  NoDup (uid_column (sentiment_df c)) →
  NoDup (uid_column (sentiment_df (after a c))).
Proof.
  intros Hnd. rewrite after_sentiment_df.
  destruct (sentiment_event_of a c); simpl; [by apply NoDup_apply_event|done].
Qed.

(** C4. From a sentiment table in which every id has at most one row (the
    empty table of the constructor is one), every action keeps it so, and
    so does every state reached by any sequence of actions: setting a
    sentiment deletes the id's rows before it appends, the reset deletes
    them, and no other action changes the table. *)
Theorem sentiment_uid_unique c0 :
  NoDup (uid_column (sentiment_df c0)) →
  (∀ a, NoDup (uid_column (sentiment_df (after a c0)))) ∧
  (∀ c, reachable c0 c → NoDup (uid_column (sentiment_df c))).
Proof.
  intros Hnd. split.
  - intros a. by apply after_NoDup.
  - intros c Hc. induction Hc as [|c a Hc IH]; [done|]. by apply after_NoDup.
Qed.
End SentimentFacts.

(** ** Setting a sentiment and reading it back *)

Section SetThenRead.
Context {U : Type} `{EqDecision U}.
Implicit Types (c : client U) (uid : U) (v : pyval).

(** A value that Python takes for true is stored for the record under the
    cursor, and the refresh that follows reads it back, as the one-element
    array [sentiment.values]. *)
Lemma set_truthy_then_read v c row :
  iloc (text_df c) (current_text_index c) = Ok row →
  truthy v = true →
  let c1 := (sent_select_f v c).2 in
  (sent_select_f v c).1 = Ok v ∧
  (create_sent_select_subpanel_text_part c1).1 = Ok tt ∧
  current_uid (create_sent_select_subpanel_text_part c1).2 = Some (row_uid row) ∧
  current_sentiment (create_sent_select_subpanel_text_part c1).2 = Some [v].
Proof.
  intros Hrow Hv. rewrite sent_select_f_run, Hrow, Hv. simpl.
  split; [done|]. rewrite create_sent_select_subpanel_text_part_run.
  rewrite set_current_variables_run.
  assert (Ht : ∀ df, text_df (if auto_save c
      then log_write (WriteLabels df) (set_sentiment_df df c)
      else set_sentiment_df df c) = text_df c) by (intros; by destruct (auto_save c)).
  assert (Hi : ∀ df, current_text_index (if auto_save c
      then log_write (WriteLabels df) (set_sentiment_df df c)
      else set_sentiment_df df c) = current_text_index c)
    by (intros; by destruct (auto_save c)).
  assert (Hs : ∀ df, sentiment_df (if auto_save c
      then log_write (WriteLabels df) (set_sentiment_df df c)
      else set_sentiment_df df c) = df) by (intros; by destruct (auto_save c)).
  rewrite Ht, Hi, Hrow, Hs. simpl.
  rewrite uid_in_upsert, rows_eq_upsert. done.
Qed.

(** A value that Python takes for false is dropped: no row is written. *)
Lemma set_falsy_ignored v c :
  truthy v = false →
  (sent_select_f v c).2 = c.
Proof.
  intros Hv. rewrite sent_select_f_run, Hv.
  by destruct (iloc (text_df c) (current_text_index c)).
Qed.
End SetThenRead.

(** C5. With the option set [-1, 0, 1], selecting the option [0] for record
    [A] of the small store returns normally and stores nothing: the
    sentiment table stays empty and the read that follows gives [None],
    not [0].  The test [if sentiment:] takes the option [0] for "nothing
    selected". *)
Theorem set_zero_sentiment_not_read_back :
  let c := demo_client false in
  let c1 := (sent_select_f (PyInt 0) c).2 in
  let c2 := (create_sent_select_subpanel_text_part c1).2 in
  (sent_select_f (PyInt 0) c).1 = Ok (PyInt 0) ∧
  sentiment_df c1 = [] ∧
  (create_sent_select_subpanel_text_part c1).1 = Ok tt ∧
  current_uid c2 = Some "A" ∧
  current_sentiment c2 = None ∧
  current_sentiment c2 ≠ Some [PyInt 0].
Proof. vm_compute. repeat split; done. Qed.

(** ** Upserts append at the end *)

Section UpsertOrder.
Context {U : Type} `{EqDecision U}.
Implicit Types (c : client U) (uid : U) (v : pyval).




End UpsertOrder.

(** ** Autosave *)

Section Autosave.
Context {U : Type} `{EqDecision U}.
Implicit Types (c : client U) (uid : U) (v : pyval).


End Autosave.


(** ** Navigation *)

Section Navigation.
Context {U : Type} `{EqDecision U}.
Implicit Types (c : client U) (uid : U).

Lemma iloc_raise_iff {A} (l : list A) i :
  iloc l i = Raise IndexError ↔ i < - Z.of_nat (length l) ∨ Z.of_nat (length l) ≤ i.
Proof.
  unfold iloc.
  destruct (i <? 0) eqn:Hneg; [apply Z.ltb_lt in Hneg|apply Z.ltb_ge in Hneg].
  - destruct (0 <=? Z.of_nat (length l) + i) eqn:H0;
      [apply Z.leb_le in H0|apply Z.leb_gt in H0]; simpl.
    + destruct (Z.of_nat (length l) + i <? Z.of_nat (length l)) eqn:H1;
        [|apply Z.ltb_ge in H1; lia].
      destruct (lookup_lt_is_Some_2 l (Z.to_nat (Z.of_nat (length l) + i)))
        as [a ->]; [lia|]. split; [done|lia].
    + split; [lia|done].
  - destruct (0 <=? i) eqn:H0; [|apply Z.leb_gt in H0; lia]. simpl.
    destruct (i <? Z.of_nat (length l)) eqn:H1;
      [apply Z.ltb_lt in H1|apply Z.ltb_ge in H1].
    + destruct (lookup_lt_is_Some_2 l (Z.to_nat i)) as [a ->]; [lia|].
      split; [done|lia].
    + split; [lia|done].
Qed.

Lemma iloc_nonneg {A} (l : list A) i :
  0 ≤ i < Z.of_nat (length l) →
  ∃ a, l !! Z.to_nat i = Some a ∧ iloc l i = Ok a.
Proof.
  intros Hi. unfold iloc.
  destruct (i <? 0) eqn:Hneg; [apply Z.ltb_lt in Hneg; lia|].
  destruct (lookup_lt_is_Some_2 l (Z.to_nat i)) as [a Ha]; [lia|].
  exists a. rewrite Ha. split; [done|].
  destruct (0 <=? i) eqn:H0; [|apply Z.leb_gt in H0; lia].
  destruct (i <? Z.of_nat (length l)) eqn:H1; [done|apply Z.ltb_ge in H1; lia].
Qed.

(** A negative position down to [-len] counts from the end. *)
Lemma iloc_negative {A} (l : list A) i :
  - Z.of_nat (length l) ≤ i < 0 →
  ∃ a, l !! Z.to_nat (Z.of_nat (length l) + i) = Some a ∧ iloc l i = Ok a.
Proof.
  intros Hi. unfold iloc.
  destruct (i <? 0) eqn:Hneg; [|apply Z.ltb_ge in Hneg; lia].
  destruct (lookup_lt_is_Some_2 l (Z.to_nat (Z.of_nat (length l) + i)))
    as [a Ha]; [lia|].
  exists a. rewrite Ha. split; [done|].
  destruct (0 <=? Z.of_nat (length l) + i) eqn:H0; [|apply Z.leb_gt in H0; lia].
  destruct (Z.of_nat (length l) + i <? Z.of_nat (length l)) eqn:H1;
    [done|apply Z.ltb_ge in H1; lia].
Qed.

Lemma iloc_exn {A} (l : list A) i e : iloc l i = Raise e → e = IndexError.
Proof.
  unfold iloc. destruct (_ && _); [|congruence].
  destruct (l !! _); congruence.
Qed.

Lemma set_current_variables_outcome i c :
  (set_current_variables i c).1
    = match iloc (text_df c) i with Ok _ => Ok tt | Raise e => Raise e end.
Proof. rewrite set_current_variables_run. by destruct (iloc (text_df c) i). Qed.

Lemma on_next_clicked_run c :
  on_next_clicked c
    = set_current_variables (current_text_index c + 1)
        (set_current_text_index (current_text_index c + 1) c).
Proof. done. Qed.

Lemma on_prev_clicked_run c :
  on_prev_clicked c
    = set_current_variables (current_text_index c - 1)
        (set_current_text_index (current_text_index c - 1) c).
Proof. done. Qed.

(** C6, as the code has it.  The two buttons move the cursor by exactly
    one, whatever its value, also when the refresh that follows raises.
    The record lookup at a cursor [i] raises [IndexError] exactly when
    [i < -n] or [n <= i], [n] being the number of records; at a negative
    cursor down to [-n] it succeeds and takes the record at [n + i].  So
    advancing from the last record raises, while retreating from the
    first record of a non-empty store gives cursor [-1] and the lookup
    returns normally. *)
Theorem cursor_moves_unchecked c :
  let n := Z.of_nat (length (text_df c)) in
  current_text_index (after Next c) = current_text_index c + 1 ∧
  current_text_index (after Prev c) = current_text_index c - 1 ∧
  (∀ i, (set_current_variables i c).1 = Raise IndexError ↔ i < - n ∨ n ≤ i) ∧
  (∀ i, - n ≤ i < 0 →
     ∃ row, text_df c !! Z.to_nat (n + i) = Some row ∧
            (set_current_variables i c).1 = Ok tt ∧
            current_uid (set_current_variables i c).2 = Some (row_uid row)) ∧
  (current_text_index c = n - 1 → (on_next_clicked c).1 = Raise IndexError) ∧
  (current_text_index c = 0 → 0 < n →
     (on_prev_clicked c).1 = Ok tt ∧ current_text_index (after Prev c) = -1).
Proof.
  intros n. subst n.
  assert (Hnext : current_text_index (after Next c) = current_text_index c + 1).
  { unfold after. simpl. rewrite on_next_clicked_run.
    match goal with
    | |- context [set_current_variables ?i ?c0] =>
        by destruct (set_current_variables_frame i c0) as (_ & _ & _ & _ & _ & ->)
    end. }
  assert (Hprev : current_text_index (after Prev c) = current_text_index c - 1).
  { unfold after. simpl. rewrite on_prev_clicked_run.
    match goal with
    | |- context [set_current_variables ?i ?c0] =>
        by destruct (set_current_variables_frame i c0) as (_ & _ & _ & _ & _ & ->)
    end. }
  split; [done|]. split; [done|]. split; [|split; [|split]].
  - intros i. rewrite set_current_variables_outcome, <- iloc_raise_iff.
    destruct (iloc (text_df c) i) as [row|e] eqn:E; [done|].
    by rewrite (iloc_exn _ _ _ E).
  - intros i Hi. destruct (iloc_negative (text_df c) i Hi) as (row & Hl & Hrow).
    exists row. split; [done|].
    rewrite set_current_variables_run, Hrow. done.
  - intros Hc. rewrite on_next_clicked_run, set_current_variables_outcome. simpl.
    assert (Hr : iloc (text_df c) (current_text_index c + 1) = Raise IndexError)
      by (apply iloc_raise_iff; lia).
    by rewrite Hr.
  - intros Hc Hn. split; [|lia].
    rewrite on_prev_clicked_run, set_current_variables_outcome. simpl.
    destruct (iloc_negative (text_df c) (current_text_index c - 1)) as (row & _ & ->);
      [lia|done].
Qed.
End Navigation.

(** C6, counterexample.  On the three records of the small store, with the
    cursor on the first one, the previous-button leaves the cursor at [-1],
    outside [0, 3), and the record lookup at that cursor does not fail: it
    returns the last record, [C]. *)
Lemma retreat_below_zero_lookup_succeeds :
  let c := demo_client false in
  current_text_index c = 0 ∧
  current_text_index (after Prev c) = -1 ∧
  ¬ (0 ≤ current_text_index (after Prev c) < Z.of_nat (length (text_df c))) ∧
  iloc (text_df c) (current_text_index (after Prev c)) = Ok (mk_text_row "C" "third text") ∧
  (on_prev_clicked c).1 = Ok tt ∧
  current_uid (after Prev c) = Some "C".
Proof. vm_compute. repeat split; try done. intros [? ?]. done. Qed.

(** ** Lookup by id and the initial cursor *)

Section Lookup.
Context {U : Type} `{EqDecision U}.
Implicit Types (tdf : list (text_row U)) (uid : U).

Lemma matching_index_nil uid k tdf :
  matching_index uid k tdf = [] ↔ uid ∉ (row_uid <$> tdf).
Proof.
  revert k. induction tdf as [|row tdf IH]; intros k; simpl.
  - split; [intros _; apply not_elem_of_nil|done].
  - rewrite not_elem_of_cons. case_decide as Hr.
    + split; [done|]. intros [Hne _]. congruence.
    + rewrite IH. split; [intros ?; split; [congruence|done]|tauto].
Qed.

(** The head of the list of matching positions is the first position
    that holds the id. *)
Lemma matching_index_head uid k tdf i rest :
  matching_index uid k tdf = i :: rest →
  k ≤ i ∧
  row_uid <$> tdf !! Z.to_nat (i - k) = Some uid ∧
  ∀ j, (j < Z.to_nat (i - k))%nat → row_uid <$> tdf !! j ≠ Some uid.
Proof.
  revert k. induction tdf as [|row tdf IH]; intros k; simpl; [done|].
  case_decide as Hr.
  - intros [= <- _]. replace (k - k) with 0 by lia. simpl.
    split; [lia|]. split; [by rewrite Hr|]. intros j Hj. lia.
  - intros Hm. destruct (IH _ Hm) as (Hk & Hi & Hfirst).
    replace (Z.to_nat (i - k)) with (S (Z.to_nat (i - (k + 1)))) by lia.
    split; [lia|]. split; [done|].
    intros [|j] Hj; simpl; [congruence|]. apply Hfirst. lia.
Qed.

Lemma find_text_index_by_uid_first tdf uid i :
  find_text_index_by_uid tdf uid = Ok i →
  0 ≤ i ∧
  row_uid <$> tdf !! Z.to_nat i = Some uid ∧
  ∀ j, (j < Z.to_nat i)%nat → row_uid <$> tdf !! j ≠ Some uid.
Proof.
  unfold find_text_index_by_uid.
  destruct (matching_index uid 0 tdf) as [|i' rest] eqn:E; [done|].
  intros [= ->]. apply matching_index_head in E.
  by replace (i - 0) with i in E by lia.
Qed.

(** C7. For an id that no record of the store has, the lookup of its
    index raises (Python's [IndexError], from taking element [0] of the
    empty list of matches); it returns no index. *)
Theorem find_text_index_by_uid_absent tdf uid :
  uid ∉ (row_uid <$> tdf) →
  find_text_index_by_uid tdf uid = Raise IndexError.
Proof.
  intros Hu%(matching_index_nil uid 0). unfold find_text_index_by_uid.
  by rewrite Hu.
Qed.

Lemma iloc_last {A} (l : list A) :
  l ≠ [] →
  ∃ a, last l = Some a ∧ iloc l (Z.of_nat (length l) - 1) = Ok a.
Proof.
  intros Hl. destruct (iloc_nonneg l (Z.of_nat (length l) - 1)) as (a & Ha & Hi).
  { destruct l; [done|]. simpl. lia. }
  exists a. split; [|done]. rewrite last_lookup, <- Ha. f_equal. lia.
Qed.

(** C8. Constructed without [start_index], the client starts with cursor
    0 when the sentiment table is empty.  Otherwise it looks up the id of
    the table's last row, the most recently labelled one, in the store:
    the cursor is the first position holding that id, and the constructor
    raises when the store has no such record. *)
Theorem init_cursor_default tdf label_file tags_file autosave :
  let sdf := default [] label_file in
  let start i :=
    mk_client tdf sdf (default [] tags_file) i None None false false autosave [] in
  init tdf label_file tags_file None autosave =
    match last sdf with
    | None => Ok (start 0)
    | Some (last_uid, _) =>
        match find_text_index_by_uid tdf last_uid with
        | Ok i => Ok (start i)
        | Raise e => Raise e
        end
    end ∧
  ∀ uid i,
    find_text_index_by_uid tdf uid = Ok i →
    0 ≤ i ∧
    row_uid <$> tdf !! Z.to_nat i = Some uid ∧
    ∀ j, (j < Z.to_nat i)%nat → row_uid <$> tdf !! j ≠ Some uid.
Proof.
  intros sdf start. split; [|apply find_text_index_by_uid_first].
  unfold init, init_current_text_index. fold sdf.
  destruct sdf as [|r sdf'] eqn:E; [done|].
  replace (0 <? Z.of_nat (length (r :: sdf'))) with true
    by (symmetry; apply Z.ltb_lt; simpl; lia).
  destruct (iloc_last (uid_column (r :: sdf'))) as (u & Hlast & Hiloc); [done|].
  unfold uid_column in *. rewrite length_fmap in Hiloc. rewrite Hiloc.
  rewrite fmap_last in Hlast.
  destruct (last (r :: sdf')) as [[u' v']|]; [|done].
  simpl in Hlast. injection Hlast as ->.
  by destruct (find_text_index_by_uid tdf u).
Qed.
End Lookup.

(** ** Saving and loading the tags table *)

Section TagsFileFacts.
Context {U : Type} `{EqDecision U}.
Variable uid_to_csv : U → string.
Variable read_uid_column : list string → list U.

(** Whatever the ids come back as, every cell of the loaded table is
    text. *)
Lemma save_then_load_text (df : table U tags_cell) :
  Forall (λ r, ∃ s, r.2 = TagText s)
    (save_then_load uid_to_csv read_uid_column df).
Proof.
  unfold save_then_load, read_csv.
  generalize (read_uid_column ((to_csv uid_to_csv df).*1)).
  generalize ((to_csv uid_to_csv df).*2).
  intros texts uids. revert texts. induction uids as [|u uids IH];
    intros [|t texts]; simpl; try apply Forall_nil_2.
  apply Forall_cons. split; [simpl; eauto|apply IH].
Qed.

(** A table built by [add_tag]/[remove_tag] that has a row does not come
    back from the file as it was. *)
Lemma save_then_load_differs (df : table U tags_cell) :
  tags_wf df → df ≠ [] →
  save_then_load uid_to_csv read_uid_column df ≠ df.
Proof.
  intros [_ Hwf] Hne Heq. pose proof (save_then_load_text df) as Htext.
  rewrite Heq in Htext. destruct df as [|r df]; [done|].
  apply Forall_cons in Hwf as [(l & Hl & _) _].
  apply Forall_cons in Htext as [(s & Hs) _]. congruence.
Qed.
End TagsFileFacts.

(** C2.  On the small store, [add_tag("A", "return_later")] builds the
    table with the one row [A, ['return_later']].  Saving writes the list as
    its text; loading gives back a row whose cell is that text, not the
    list.  The loaded table differs from the saved one, and the methods see
    the difference: [check_tag("A", "later")] is a substring test and
    answers [True], and [add_tag("A", "not_rel")] raises [AttributeError].
    The ids are strings that the file returns unchanged. *)
Theorem tags_round_trip_gives_text :
  let c := after (AddTag "A" "return_later") (demo_client false) in
  let loaded := save_then_load id id (tags_df c) in
  let c' := set_tags_df loaded (demo_client false) in
  tags_df c = [("A", TagList ["return_later"])] ∧
  to_csv id (tags_df c) = [("A", "['return_later']")] ∧
  loaded = [("A", TagText "['return_later']")] ∧
  loaded ≠ tags_df c ∧
  check_tag c "A" "later" = false ∧
  check_tag c' "A" "later" = true ∧
  (add_tag "A" "not_rel" c).1 = Ok tt ∧
  (add_tag "A" "not_rel" c').1 = Raise AttributeError.
Proof. vm_compute. repeat split; done. Qed.

(** ** Highlighting *)

Lemma length_str_drop n s :
  String.length (str_drop n s) = (String.length s - n)%nat.
Proof.
  revert s. induction n as [|n IH]; intros [|a s]; simpl; done.
Qed.

(** When every match ends after the start of the text, the nesting of the
    calls is bounded by the length of the text: a depth above it is enough
    for the method to return. *)
Lemma add_match_formatting_returns color (re : regex) :
  (∀ s m_start m_end, re s = Some (m_start, m_end) → (0 < m_end)%nat) →
  ∀ str depth, (String.length str < depth)%nat →
  ∃ out, add_match_formatting depth color re str = Ok out.
Proof.
  intros Hre str depth. revert str.
  induction depth as [|depth IH]; intros str Hd; [lia|]. simpl.
  destruct (re str) as [[m_start m_end]|] eqn:E; [|eauto].
  destruct (0 <? String.length (str_drop m_end str))%nat eqn:Hrest; [|eauto].
  apply Nat.ltb_lt in Hrest. rewrite length_str_drop in Hrest.
  pose proof (Hre _ _ _ E) as Hend.
  destruct (IH (str_drop m_end str)) as [rest ->]; [|eauto].
  rewrite length_str_drop. lia.
Qed.

Lemma literal_empty s : literal EmptyString s = Some (0%nat, 0%nat).
Proof. unfold literal. by destruct s. Qed.

(** With the empty pattern, the constructor's default, every call on a
    non-empty text calls itself on the same text: no depth is enough. *)
Lemma add_match_formatting_empty_pattern color a s depth :
  add_match_formatting depth color (literal EmptyString) (String a s)
    = Raise RecursionError.
Proof.
  induction depth as [|depth IH]; [done|].
  cbn [add_match_formatting]. rewrite literal_empty. simpl. by rewrite IH.
Qed.

(** C9.  A match that ends the text is left without markup: the text
    [foo] comes back as it is for the pattern [foo], and in [foo foo] only
    the first of the two matches is wrapped.  With the empty pattern, which
    is the default, the method does not return on the text [a], whatever
    the depth allowed.  A match followed by more text is wrapped. *)
Theorem final_match_not_wrapped :
  (∀ depth, add_match_formatting (S depth) "blue" (literal "foo") "foo" = Ok "foo") ∧
  add_match_formatting 2 "blue" (literal "foo") "foo foo"
    = Ok (span_open "blue" +:+ "foo" +:+ span_close +:+ " foo") ∧
  add_match_formatting 2 "blue" (literal "foo") "a foo b"
    = Ok ("a " +:+ span_open "blue" +:+ "foo" +:+ span_close +:+ " b") ∧
  (∀ depth, add_match_formatting depth "blue" (literal EmptyString) "a"
            = Raise RecursionError).
Proof.
  split; [|split; [|split]].
  - intros depth. reflexivity.
  - reflexivity.
  - reflexivity.
  - intros depth. apply add_match_formatting_empty_pattern.
Qed.

(** * Worked instances on the small store *)

(** Adding "return_later" twice to record [A] and removing it once leaves
    no row for [A]: the calls return and follow the plain set. *)
Lemma tag_calls_replay_plain_set_witness :
  let ops := [OpAdd "return_later"; OpAdd "return_later"; OpRemove "return_later"] in
  tags_wf (tags_df (demo_client false)) ∧
  ∃ c', tag_calls "A" ops (demo_client false) = (Ok tt, c') ∧
        held_tags "A" (tags_df c')
          = plain_set_replay ops (held_tags "A" (tags_df (demo_client false))) ∧
        (uid_in "A" (tags_df c') = true
           ↔ plain_set_replay ops (held_tags "A" (tags_df (demo_client false))) ≠ ∅).
Proof.
  split; [apply tags_wf_nil|].
  apply (tag_calls_replay_plain_set "A"), tags_wf_nil.
Defined.

Lemma sentiment_uid_unique_witness :
  NoDup (uid_column (sentiment_df (demo_client false))) ∧
  (∀ a, NoDup (uid_column (sentiment_df (after a (demo_client false))))) ∧
  (∀ c, reachable (demo_client false) c → NoDup (uid_column (sentiment_df c))).
Proof.
  split; [apply NoDup_nil_2|].
  apply (sentiment_uid_unique (demo_client false)). apply NoDup_nil_2.
Defined.


Lemma cursor_moves_unchecked_witness :
  let c := demo_client false in
  - 3 ≤ -1 < 0 ∧
  ∃ row, text_df c !! Z.to_nat (3 + -1) = Some row ∧
         (set_current_variables (-1) c).1 = Ok tt ∧
         current_uid (set_current_variables (-1) c).2 = Some (row_uid row).
Proof.
  split; [lia|].
  destruct (cursor_moves_unchecked (demo_client false)) as (_ & _ & _ & Hneg & _).
  apply (Hneg (-1)). simpl. lia.
Defined.

Lemma find_text_index_by_uid_absent_witness :
  ("Z" ∉ (row_uid <$> demo_text)) ∧
  find_text_index_by_uid demo_text "Z" = Raise IndexError.
Proof.
  assert (Habs : "Z" ∉ (row_uid <$> demo_text)).
  { simpl. intros Hin.
    repeat (apply elem_of_cons in Hin as [Hin|Hin]; [discriminate|]).
    by apply elem_of_nil in Hin. }
  split; [exact Habs|]. apply (find_text_index_by_uid_absent demo_text "Z" Habs).
Defined.

(** A label file whose last row is for [B] starts the client on the second
    record. *)
Lemma init_cursor_default_witness :
  let labels := [("C", PyStr "negative"); ("B", PyStr "positive")] in
  init demo_text (Some labels) None None false
    = Ok (mk_client demo_text labels [] 1 None None false false false []) ∧
  find_text_index_by_uid demo_text "B" = Ok 1 ∧
  0 ≤ 1 ∧
  row_uid <$> demo_text !! Z.to_nat 1 = Some "B" ∧
  ∀ j, (j < Z.to_nat 1)%nat → row_uid <$> demo_text !! j ≠ Some "B".
Proof.
  intros labels.
  destruct (init_cursor_default demo_text (Some labels) None false) as [Hinit Hfirst].
  split; [exact Hinit|]. split; [reflexivity|].
  apply (Hfirst "B" 1). reflexivity.
Defined.



(** * Further properties *)

(** ** Tag calls: membership, other ids, failures *)

Section TagCallFacts.
Context {U : Type} `{EqDecision U}.
Implicit Types (c : client U) (uid : U) (tag : string) (df : table U tags_cell).

Lemma tag_call_run uid op c :
  tag_call uid op c = perform (match op with
                               | OpAdd tag => AddTag uid tag
                               | OpRemove tag => RemoveTag uid tag
                               end) c.
Proof. by destruct op. Qed.

(** The table after a tag call is the old one, or the old one without the
    id's rows, with or without one new row for the id at the end. *)
Lemma tag_call_tags_df uid op c :
  tags_df (tag_call uid op c).2 = tags_df c ∨
  tags_df (tag_call uid op c).2 = rows_ne uid (tags_df c) ∨
  ∃ cell, tags_df (tag_call uid op c).2 = append_row (rows_ne uid (tags_df c)) uid cell.
Proof.
  destruct op as [tag|tag]; simpl.
  - rewrite add_tag_run.
    destruct (if uid_in uid (tags_df c) then _ else _) as [tmp|e]; [|by left].
    rewrite do_auto_save_tags_df. right. right. by eexists.
  - rewrite remove_tag_run. destruct (uid_in uid (tags_df c)).
    + destruct (first_cell uid (tags_df c)) as [cell|]; [|by left].
      destruct (cell_remove tag cell) as [tmp|]; [|by left].
      rewrite do_auto_save_tags_df.
      destruct (cell_is_empty_list tmp); simpl; [by right; left|].
      right. right. by eexists.
    + rewrite do_auto_save_tags_df. by left.
Qed.

Lemma rows_ne_idemp {A} uid (df : table U A) :
  rows_ne uid (rows_ne uid df) = rows_ne uid df.
Proof. apply rows_ne_absent, uid_in_rows_ne. Qed.

Lemma rows_ne_upsert {A} uid (a : A) (df : table U A) :
  rows_ne uid (append_row (rows_ne uid df) uid a) = rows_ne uid df.
Proof.
  unfold append_row, rows_ne at 1. rewrite filter_app.
  fold (rows_ne uid (rows_ne uid df)). rewrite rows_ne_idemp.
  rewrite filter_cons. simpl. rewrite decide_False by (by intros ?).
  by rewrite filter_nil, app_nil_r.
Qed.

Lemma first_cell_rows_ne {A} uid u (df : table U A) :
  u ≠ uid → first_cell u (rows_ne uid df) = first_cell u df.
Proof.
  intros Hne. unfold first_cell, rows_eq, rows_ne.
  induction df as [|r df IH]; [done|].
  rewrite !filter_cons.
  destruct (decide (r.1 ≠ uid)) as [H1|H1%dec_stable];
    destruct (decide (r.1 = u)) as [H2|H2];
    rewrite ?filter_cons; repeat case_decide; try done; congruence.
Qed.

Lemma uid_in_rows_ne_other {A} uid u (df : table U A) :
  u ≠ uid → uid_in u (rows_ne uid df) = uid_in u df.
Proof.
  intros Hne. unfold uid_in. apply bool_decide_ext.
  rewrite elem_of_uid_column_rows_ne. tauto.
Qed.

Lemma check_tag_tags_df c c' uid tag :
  tags_df c = tags_df c' → check_tag c uid tag = check_tag c' uid tag.
Proof. unfold check_tag. by intros ->. Qed.

(** What [check_tag] answers for another id depends on the rows of the
    other ids only. *)
Lemma check_tag_rows_ne c c' uid u tag :
  u ≠ uid →
  rows_ne uid (tags_df c) = rows_ne uid (tags_df c') →
  check_tag c u tag = check_tag c' u tag.
Proof.
  intros Hne Hrows. unfold check_tag.
  rewrite <- (uid_in_rows_ne_other uid u (tags_df c)) by done.
  rewrite <- (uid_in_rows_ne_other uid u (tags_df c')) by done.
  rewrite <- (first_cell_rows_ne uid u (tags_df c)) by done.
  rewrite <- (first_cell_rows_ne uid u (tags_df c')) by done.
  by rewrite Hrows.
Qed.

(** X2. A call of [add_tag] or [remove_tag] on one id, whether it returns
    or raises, keeps the rows of all other ids, in their order; so
    [check_tag] on another id answers as before. *)
Theorem tag_call_other_ids uid op c :
  rows_ne uid (tags_df (tag_call uid op c).2) = rows_ne uid (tags_df c) ∧
  ∀ u tag, u ≠ uid →
    check_tag (tag_call uid op c).2 u tag = check_tag c u tag.
Proof.
  assert (Hrows : rows_ne uid (tags_df (tag_call uid op c).2)
                  = rows_ne uid (tags_df c)).
  { destruct (tag_call_tags_df uid op c) as [->|[->|[cell ->]]];
      [done|apply rows_ne_idemp|apply rows_ne_upsert]. }
  split; [done|]. intros u tag Hne. by apply (check_tag_rows_ne _ _ uid).
Qed.

(** On a well-formed table [check_tag] is membership in the held set. *)
Lemma check_tag_held c uid tag :
  tags_wf (tags_df c) →
  check_tag c uid tag = bool_decide (tag ∈ held_tags uid (tags_df c)).
Proof.
  intros Hwf. unfold check_tag, held_tags.
  destruct (uid_in uid (tags_df c)) eqn:Hin.
  - destruct (uid_in_first_cell _ _ Hin) as [cell Hc]. rewrite Hc.
    destruct (tags_wf_first_cell _ _ _ Hwf Hc) as (l & -> & _). simpl.
    unfold py_in. apply bool_decide_ext. by rewrite elem_of_list_to_set.
  - apply uid_in_false, first_cell_None in Hin. rewrite Hin.
    symmetry. apply bool_decide_eq_false. apply not_elem_of_empty.
Qed.

(** X1. On a well-formed tags table, [check_tag] sees what the calls did:
    after [add_tag(uid, tag)] it answers [True] for the tag, after
    [remove_tag(uid, tag)] it answers [False], and for every other tag of
    the id it answers as before the call. *)
Theorem check_tag_after_tag_call uid tag c :
  tags_wf (tags_df c) →
  check_tag (after (AddTag uid tag) c) uid tag = true ∧
  check_tag (after (RemoveTag uid tag) c) uid tag = false ∧
  ∀ t, t ≠ tag →
    check_tag (after (AddTag uid tag) c) uid t = check_tag c uid t ∧
    check_tag (after (RemoveTag uid tag) c) uid t = check_tag c uid t.
Proof.
  intros Hwf.
  destruct (tag_call_step uid (OpAdd tag) c Hwf) as (_ & Hwa & Ha).
  destruct (tag_call_step uid (OpRemove tag) c Hwf) as (_ & Hwr & Hr).
  unfold after. simpl in *.
  rewrite !check_tag_held, Ha, Hr by done. simpl.
  split; [|split].
  - apply bool_decide_eq_true. apply elem_of_union. right.
    by apply elem_of_singleton.
  - apply bool_decide_eq_false. rewrite elem_of_difference, elem_of_singleton.
    tauto.
  - intros t Ht. rewrite !check_tag_held, Ha, Hr by done. simpl. split.
    + apply bool_decide_ext. rewrite elem_of_union, elem_of_singleton. tauto.
    + apply bool_decide_ext. rewrite elem_of_difference, elem_of_singleton. tauto.
Qed.

(** X5. [add_tag] and [remove_tag] raise only on an id whose row holds a
    text cell, the exception is [AttributeError], and the client is then
    exactly as before the call: no row is moved and nothing is saved. *)
Theorem tag_call_raise_unchanged uid op c e :
  (tag_call uid op c).1 = Raise e →
  e = AttributeError ∧
  (∃ s, first_cell uid (tags_df c) = Some (TagText s)) ∧
  (tag_call uid op c).2 = c.
Proof.
  destruct op as [tag|tag]; simpl.
  - rewrite add_tag_run. destruct (uid_in uid (tags_df c)) eqn:Hin;
      [|by rewrite do_auto_save_Ok].
    destruct (uid_in_first_cell _ _ Hin) as [cell Hc]. rewrite Hc.
    destruct cell as [l|s]; simpl; [by rewrite do_auto_save_Ok|].
    destruct (str_contains tag s); [by rewrite do_auto_save_Ok|].
    simpl. intros [= <-]. eauto.
  - rewrite remove_tag_run. destruct (uid_in uid (tags_df c)) eqn:Hin;
      [|by rewrite do_auto_save_Ok].
    destruct (uid_in_first_cell _ _ Hin) as [cell Hc]. rewrite Hc.
    destruct cell as [l|s]; simpl; [by rewrite do_auto_save_Ok|].
    destruct (str_contains tag s); [|by rewrite do_auto_save_Ok].
    simpl. intros [= <-]. eauto.
Qed.

(** X6. A row whose cell is text, as every row of a loaded tags file is,
    keeps that cell through [add_tag] and [remove_tag] on its id: whether
    the call returns or raises, no tag is added to it or removed from it,
    and the row is not deleted. *)
Theorem tag_call_text_row_frozen uid op c s :
  first_cell uid (tags_df c) = Some (TagText s) →
  first_cell uid (tags_df (tag_call uid op c).2) = Some (TagText s).
Proof.
  intros Hc.
  assert (Hin : uid_in uid (tags_df c) = true).
  { destruct (uid_in uid (tags_df c)) eqn:E; [done|].
    apply uid_in_false, first_cell_None in E. congruence. }
  destruct op as [tag|tag]; simpl.
  - rewrite add_tag_run, Hin, Hc. simpl.
    destruct (str_contains tag s); [|done].
    rewrite do_auto_save_tags_df. apply first_cell_upsert.
  - rewrite remove_tag_run, Hin, Hc. simpl.
    destruct (str_contains tag s); [done|]. simpl.
    rewrite do_auto_save_tags_df. apply first_cell_upsert.
Qed.

(** X3. [add_tag] twice with the same arguments leaves the tags table as
    one call does, on any table; so does [remove_tag] on a well-formed
    table. *)
Theorem tag_call_twice uid tag c :
  tags_df (run [AddTag uid tag; AddTag uid tag] c)
    = tags_df (after (AddTag uid tag) c) ∧
  (tags_wf (tags_df c) →
   tags_df (run [RemoveTag uid tag; RemoveTag uid tag] c)
     = tags_df (after (RemoveTag uid tag) c)).
Proof.
  split.
  - simpl. unfold after at 1 2 3. simpl.
    rewrite (add_tag_run uid tag c).
    destruct (uid_in uid (tags_df c)) eqn:Hin.
    + destruct (uid_in_first_cell _ _ Hin) as [cell Hc]. rewrite Hc.
      destruct cell as [l|s]; simpl.
      * rewrite add_tag_run. rewrite !do_auto_save_tags_df. simpl.
        rewrite uid_in_upsert, first_cell_upsert, rows_ne_upsert. simpl.
        rewrite do_auto_save_tags_df. simpl.
        destruct (py_in tag l) eqn:Ht; [by rewrite Ht|].
        replace (py_in tag (l ++ [tag])) with true; [done|].
        symmetry. apply py_in_true, elem_of_app. right.
        by apply list_elem_of_singleton.
      * destruct (str_contains tag s) eqn:Hs; simpl.
        -- rewrite add_tag_run. rewrite !do_auto_save_tags_df. simpl.
           rewrite uid_in_upsert, first_cell_upsert, rows_ne_upsert. simpl.
           rewrite Hs. by rewrite do_auto_save_tags_df.
        -- rewrite add_tag_run, Hin, Hc. simpl. by rewrite Hs.
    + rewrite add_tag_run. rewrite !do_auto_save_tags_df. simpl.
      rewrite uid_in_upsert, first_cell_upsert, rows_ne_upsert. simpl.
      rewrite do_auto_save_tags_df. simpl.
      replace (py_in tag [tag]) with true; [done|].
      symmetry. by apply py_in_true, list_elem_of_singleton.
  - intros Hwf. simpl. unfold after at 1 2 3. simpl.
    rewrite (remove_tag_run uid tag c).
    destruct (uid_in uid (tags_df c)) eqn:Hin.
    + destruct (uid_in_first_cell _ _ Hin) as [cell Hc]. rewrite Hc.
      destruct (tags_wf_first_cell _ _ _ Hwf Hc) as (l & -> & Hl & Hnd). simpl.
      assert (Ht : py_in tag (if py_in tag l then py_remove tag l else l) = false).
      { apply py_in_false. destruct (py_in tag l) eqn:E.
        - rewrite elem_of_py_remove by done. tauto.
        - by apply py_in_false. }
      destruct (if py_in tag l then py_remove tag l else l) as [|t l'] eqn:El; simpl.
      * rewrite remove_tag_run. rewrite !do_auto_save_tags_df. simpl.
        rewrite uid_in_rows_ne. by rewrite !do_auto_save_tags_df.
      * rewrite remove_tag_run. rewrite !do_auto_save_tags_df. simpl.
        rewrite uid_in_upsert, first_cell_upsert. simpl. rewrite Ht.
        rewrite !do_auto_save_tags_df. simpl. by rewrite rows_ne_upsert.
    + rewrite remove_tag_run. rewrite !do_auto_save_tags_df, Hin.
      by rewrite !do_auto_save_tags_df.
Qed.
End TagCallFacts.

(** ** The tags table through every action *)

Section TagsInvariant.
Context {U : Type} `{EqDecision U}.
Implicit Types (c : client U) (uid : U).

Lemma refresh_frame c :
  let c' := (create_sent_select_subpanel_text_part c).2 in
  text_df c' = text_df c ∧ sentiment_df c' = sentiment_df c ∧
  tags_df c' = tags_df c ∧ auto_save c' = auto_save c ∧
  writes c' = writes c ∧ current_text_index c' = current_text_index c.
Proof.
  rewrite create_sent_select_subpanel_text_part_run.
  apply set_current_variables_frame.
Qed.

(** Only the two tag calls touch the tags table. *)
Lemma after_tags_df a c :
  tags_df (after a c)
    = match a with
      | AddTag uid tag => tags_df (tag_call uid (OpAdd tag) c).2
      | RemoveTag uid tag => tags_df (tag_call uid (OpRemove tag) c).2
      | _ => tags_df c
      end.
Proof.
  unfold after. destruct a as [v| |uid tag|uid tag| | |]; simpl; try done.
  - unfold mbind, M_bind, mret, M_ret. rewrite sent_select_f_run.
    destruct (iloc (text_df c) (current_text_index c)) as [row|e]; [|done].
    destruct (truthy v); [|done]. simpl. by destruct (auto_save c).
  - rewrite on_del_clicked_run. destruct (current_uid c) as [uid|]; [|done].
    simpl.
    match goal with
    | |- context [create_sent_select_subpanel_text_part ?c0] =>
        destruct (refresh_frame c0) as (_ & _ & -> & _)
    end.
    by destruct (auto_save c).
  - rewrite on_next_clicked_run.
    match goal with
    | |- context [set_current_variables ?i ?c0] =>
        by destruct (set_current_variables_frame i c0) as (_ & _ & -> & _)
    end.
  - rewrite on_prev_clicked_run.
    match goal with
    | |- context [set_current_variables ?i ?c0] =>
        by destruct (set_current_variables_frame i c0) as (_ & _ & -> & _)
    end.
Qed.

(** X4. From a well-formed tags table (the constructor's empty one is),
    every state reached by any sequence of actions has a well-formed tags
    table: one row per id, and in each row a non-empty list of tags without
    repetition.  In particular no row ever holds the empty list. *)
Theorem tags_wf_reachable c0 :
  tags_wf (tags_df c0) →
  ∀ c, reachable c0 c → tags_wf (tags_df c).
Proof.
  intros Hwf c Hc. induction Hc as [|c a Hc IH]; [done|].
  rewrite after_tags_df. destruct a as [v| |uid tag|uid tag| | |]; try done.
  - by destruct (tag_call_step uid (OpAdd tag) c IH) as (_ & ? & _).
  - by destruct (tag_call_step uid (OpRemove tag) c IH) as (_ & ? & _).
Qed.
End TagsInvariant.

(** ** Reading, resetting and keeping sentiments *)

Section SentimentReads.
Context {U : Type} `{EqDecision U}.
Implicit Types (c : client U) (uid : U) (v : pyval).

Lemma rows_eq_unique {A} uid (a : A) (df : table U A) :
  NoDup (uid_column df) → (uid, a) ∈ df → rows_eq uid df = [(uid, a)].
Proof.
  unfold uid_column, rows_eq. induction df as [|r df IH]; [by intros _ ?%elem_of_nil|].
  rewrite fmap_cons, NoDup_cons, elem_of_cons. intros [Hr Hnd] [Heq|Hin].
  - subst r. rewrite filter_cons. simpl. rewrite decide_True by done. f_equal.
    simpl in Hr. clear IH Hnd. induction df as [|r df IH]; [done|].
    rewrite fmap_cons, not_elem_of_cons in Hr. destruct Hr as [Hne Hr].
    rewrite filter_cons, decide_False by congruence. auto.
  - rewrite filter_cons. case_decide as Hd; [|auto].
    exfalso. apply Hr. rewrite Hd. apply list_elem_of_fmap. by exists (uid, a).
Qed.

(** X9. The refresh at a valid position makes the record there the current
    one and reads its annotations: with one row per id in the sentiment
    table, [current_sentiment] is the one-element array of the stored
    value for a labelled record and [None] for an unlabelled one, and the
    two flags are what [check_tag] answers for the two button tags. *)
Theorem refresh_reads_annotations c i row :
  iloc (text_df c) i = Ok row →
  NoDup (uid_column (sentiment_df c)) →
  let c' := (set_current_variables i c).2 in
  (set_current_variables i c).1 = Ok tt ∧
  current_uid c' = Some (row_uid row) ∧
  (∀ v, (row_uid row, v) ∈ sentiment_df c → current_sentiment c' = Some [v]) ∧
  (row_uid row ∉ uid_column (sentiment_df c) → current_sentiment c' = None) ∧
  current_return_later c' = check_tag c (row_uid row) "return_later" ∧
  current_not_rel c' = check_tag c (row_uid row) "not_rel".
Proof.
  intros Hrow Hnd. rewrite set_current_variables_run, Hrow. simpl.
  split; [done|]. split; [done|]. split; [|split; [|done]].
  - intros v Hv.
    assert (Hin : uid_in (row_uid row) (sentiment_df c) = true).
    { apply uid_in_true, list_elem_of_fmap. by exists (row_uid row, v). }
    rewrite Hin. by rewrite (rows_eq_unique _ v).
  - intros Hn%uid_in_false. by rewrite Hn.
Qed.

(** X7. The reset button, when the current id is the id of the record
    under the cursor: the handler returns, the id has no sentiment row
    left, the following read gives [None], the rows of the other ids are
    kept in their order, and on an id without sentiment the table does not
    change. *)
Theorem reset_then_read c uid row :
  current_uid c = Some uid →
  iloc (text_df c) (current_text_index c) = Ok row →
  row_uid row = uid →
  (on_del_clicked c).1 = Ok tt ∧
  uid_in uid (sentiment_df (after ClearSentiment c)) = false ∧
  current_sentiment (after ClearSentiment c) = None ∧
  rows_ne uid (sentiment_df (after ClearSentiment c)) = rows_ne uid (sentiment_df c) ∧
  (uid_in uid (sentiment_df c) = false →
   sentiment_df (after ClearSentiment c) = sentiment_df c).
Proof.
  intros Hu Hrow Huid.
  assert (Hs : sentiment_df (after ClearSentiment c) = rows_ne uid (sentiment_df c)).
  { rewrite after_sentiment_df. simpl. by rewrite Hu. }
  rewrite Hs, uid_in_rows_ne, rows_ne_idemp.
  assert (Hrun : (on_del_clicked c).1 = Ok tt ∧
                 current_sentiment (on_del_clicked c).2 = None).
  { rewrite on_del_clicked_run, Hu. simpl.
    rewrite create_sent_select_subpanel_text_part_run, set_current_variables_run.
    destruct (auto_save c); simpl; rewrite Hrow; simpl;
      by rewrite Huid, uid_in_rows_ne. }
  destruct Hrun as [Hok Hcur].
  split; [done|]. split; [done|]. split; [exact Hcur|]. split; [done|].
  apply rows_ne_absent.
Qed.

(** X8. Storing a sentiment for the record under the cursor keeps the rows
    of all other ids, in their order, so another record reads as before;
    and when the cursor is out of range the call raises and the client is
    as it was. *)
Theorem set_sentiment_other_ids c v :
  (∀ row, iloc (text_df c) (current_text_index c) = Ok row →
     rows_ne (row_uid row) (sentiment_df (after (SetSentiment v) c))
       = rows_ne (row_uid row) (sentiment_df c) ∧
     ∀ u, u ≠ row_uid row →
       first_cell u (sentiment_df (after (SetSentiment v) c))
         = first_cell u (sentiment_df c)) ∧
  (∀ e, iloc (text_df c) (current_text_index c) = Raise e →
     (sent_select_f v c).1 = Raise IndexError ∧ after (SetSentiment v) c = c).
Proof.
  split.
  - intros row Hrow.
    assert (Hrows : rows_ne (row_uid row) (sentiment_df (after (SetSentiment v) c))
                    = rows_ne (row_uid row) (sentiment_df c)).
    { rewrite after_sentiment_df. simpl. rewrite Hrow.
      destruct (truthy v); simpl; [apply rows_ne_upsert|done]. }
    split; [done|]. intros u Hne.
    rewrite <- (first_cell_rows_ne (row_uid row) u) by done.
    rewrite Hrows. by apply first_cell_rows_ne.
  - intros e He. unfold after. simpl. unfold mbind, M_bind.
    rewrite sent_select_f_run, He. simpl. by rewrite (iloc_exn _ _ _ He).
Qed.
End SentimentReads.

(** ** Navigation there and back *)

Section NavigationFacts.
Context {U : Type} `{EqDecision U}.
Implicit Types (c : client U).


End NavigationFacts.

(** ** Lookup by id, and when the constructor raises *)

Section LookupFacts.
Context {U : Type} `{EqDecision U}.
Implicit Types (tdf : list (text_row U)) (uid : U).

Lemma find_text_index_by_uid_absent_aux tdf uid :
  uid ∉ (row_uid <$> tdf) → find_text_index_by_uid tdf uid = Raise IndexError.
Proof.
  intros Hu%(matching_index_nil uid 0). unfold find_text_index_by_uid.
  by rewrite Hu.
Qed.

Lemma matching_index_present uid k tdf :
  uid ∈ (row_uid <$> tdf) → ∃ i rest, matching_index uid k tdf = i :: rest.
Proof.
  intros Hin. destruct (matching_index uid k tdf) as [|i rest] eqn:E; [|eauto].
  apply matching_index_nil in E. done.
Qed.

(** X11. For the id of a record of the store, the lookup returns the first
    position that holds the id, and the record there has the id; when the
    ids of the store are all different, the lookup of the id of the record
    at position [k] returns [k]. *)
Theorem find_text_index_by_uid_present tdf :
  (∀ uid, uid ∈ (row_uid <$> tdf) →
     ∃ i row, find_text_index_by_uid tdf uid = Ok i ∧
              iloc tdf i = Ok row ∧ row_uid row = uid ∧
              ∀ j, (j < Z.to_nat i)%nat → row_uid <$> tdf !! j ≠ Some uid) ∧
  (NoDup (row_uid <$> tdf) →
   ∀ k row, tdf !! k = Some row →
     find_text_index_by_uid tdf (row_uid row) = Ok (Z.of_nat k)).
Proof.
  assert (Hfirst : ∀ uid, uid ∈ (row_uid <$> tdf) →
     ∃ i row, find_text_index_by_uid tdf uid = Ok i ∧
              0 ≤ i ∧ tdf !! Z.to_nat i = Some row ∧
              iloc tdf i = Ok row ∧ row_uid row = uid ∧
              ∀ j, (j < Z.to_nat i)%nat → row_uid <$> tdf !! j ≠ Some uid).
  { intros uid Hin.
    destruct (matching_index_present uid 0 tdf Hin) as (i & rest & E).
    assert (Hf : find_text_index_by_uid tdf uid = Ok i).
    { unfold find_text_index_by_uid. by rewrite E. }
    destruct (find_text_index_by_uid_first _ _ _ Hf) as (H0 & Hrow & Hmin).
    destruct (tdf !! Z.to_nat i) as [row|] eqn:El; [|done].
    simpl in Hrow. injection Hrow as Hrow.
    exists i, row. split; [done|]. split; [done|]. split; [done|].
    split; [|done].
    destruct (iloc_nonneg tdf i) as (a & Ha & Hi).
    { split; [done|]. apply lookup_lt_Some in El. lia. }
    congruence. }
  split.
  - intros uid Hin. destruct (Hfirst uid Hin) as (i & row & ? & ? & ? & ? & ? & ?).
    eauto 10.
  - intros Hnd k row Hk.
    destruct (Hfirst (row_uid row)) as (i & row' & Hf & H0 & Hi & _ & Hu & _).
    { apply list_elem_of_fmap. exists row. split; [done|].
      by apply list_elem_of_lookup_2 with k. }
    rewrite Hf. f_equal.
    assert (Z.to_nat i = k); [|lia].
    apply (NoDup_lookup _ _ _ (row_uid row) Hnd);
      rewrite list_lookup_fmap; [by rewrite Hi; simpl; rewrite Hu|by rewrite Hk].
Qed.

Lemma init_without_start_index tdf label_file tags_file autosave :
  init tdf label_file tags_file None autosave =
    match last (default [] label_file) with
    | None =>
        Ok (mk_client tdf (default [] label_file) (default [] tags_file) 0
              None None false false autosave [])
    | Some (last_uid, _) =>
        match find_text_index_by_uid tdf last_uid with
        | Ok i =>
            Ok (mk_client tdf (default [] label_file) (default [] tags_file) i
                  None None false false autosave [])
        | Raise e => Raise e
        end
    end.
Proof.
  unfold init, init_current_text_index.
  destruct (default [] label_file) as [|r sdf'] eqn:E; [done|].
  replace (0 <? Z.of_nat (length (r :: sdf'))) with true
    by (symmetry; apply Z.ltb_lt; simpl; lia).
  destruct (iloc_last (uid_column (r :: sdf'))) as (u & Hlast & Hiloc); [done|].
  unfold uid_column in *. rewrite length_fmap in Hiloc. rewrite Hiloc.
  rewrite fmap_last in Hlast.
  destruct (last (r :: sdf')) as [[u' v']|]; [|done].
  simpl in Hlast. injection Hlast as ->.
  by destruct (find_text_index_by_uid tdf u).
Qed.

(** X12. Once the files are read, the constructor raises in one case
    only: no [start_index] is given, the sentiment table it loaded has a
    last row, and the store has no record with the id of that row; the
    exception is [IndexError].  An explicit [start_index] is taken as it
    is, in range or not. *)
Theorem init_raises_iff tdf label_file tags_file start_index autosave e :
  init tdf label_file tags_file start_index autosave = Raise e ↔
  e = IndexError ∧ start_index = None ∧
  ∃ uid v, last (default [] label_file) = Some (uid, v) ∧
           uid ∉ (row_uid <$> tdf).
Proof.
  destruct start_index as [i|].
  - unfold init. simpl. split; [done|]. by intros (_ & ? & _).
  - rewrite init_without_start_index.
    destruct (last (default [] label_file)) as [[u v]|] eqn:El.
    + destruct (find_text_index_by_uid tdf u) as [i|e'] eqn:Ef.
      * split; [done|]. intros (_ & _ & u' & v' & [= <- <-] & Hn).
        rewrite (find_text_index_by_uid_absent_aux _ _ Hn) in Ef. done.
      * assert (Hn : u ∉ (row_uid <$> tdf)).
        { unfold find_text_index_by_uid in Ef.
          destruct (matching_index u 0 tdf) eqn:Em; [|done].
          by apply matching_index_nil in Em. }
        rewrite (find_text_index_by_uid_absent_aux _ _ Hn) in Ef.
        injection Ef as <-. split.
        -- intros [= <-]. eauto 10.
        -- by intros (-> & _).
    + split; [done|]. by intros (_ & _ & ? & ? & ? & _).
Qed.
End LookupFacts.

(** ** What the actions write *)

Section FileFacts.
Context {U : Type} `{EqDecision U}.
Implicit Types (c : client U) (a : action U).

Lemma label_file_after_app (before : table U pyval) ws1 ws2 :
  label_file_after before (ws1 ++ ws2)
    = label_file_after (label_file_after before ws1) ws2.
Proof.
  revert before. induction ws1 as [|[df|df] ws1 IH]; intros before; simpl; auto.
Qed.

Lemma tags_file_after_app (before : table U tags_cell) ws1 ws2 :
  tags_file_after before (ws1 ++ ws2)
    = tags_file_after (tags_file_after before ws1) ws2.
Proof.
  revert before. induction ws1 as [|[df|df] ws1 IH]; intros before; simpl; auto.
Qed.

(** The writes of one action, and the flag it leaves alone. *)
Lemma after_writes a c :
  auto_save (after a c) = auto_save c ∧
  writes (after a c) = writes c ++
    match a with
    | SetSentiment _ | ClearSentiment =>
        if auto_save c then
          match sentiment_event_of a c with
          | Some _ => [WriteLabels (sentiment_df (after a c))]
          | None => []
          end
        else []
    | AddTag _ _ | RemoveTag _ _ =>
        if auto_save c then
          match (perform a c).1 with
          | Ok _ => [WriteLabels (sentiment_df (after a c));
                     WriteTags (tags_df (after a c))]
          | Raise _ => []
          end
        else []
    | Save => [WriteLabels (sentiment_df c); WriteTags (tags_df c)]
    | Next | Prev => []
    end.
Proof.
  assert (Hclose : ∀ (b : bool) (ws : list (write_event U)),
            ws = ws ++ (if b then [] else [])).
  { intros [] ws; by rewrite app_nil_r. }
  unfold after. destruct a as [v| |uid tag|uid tag| | |]; simpl.
  - unfold mbind, M_bind, mret, M_ret. rewrite sent_select_f_run.
    destruct (iloc (text_df c) (current_text_index c)) as [row|e];
      [|split; [done|apply Hclose]].
    destruct (truthy v); [|split; [done|apply Hclose]].
    simpl. destruct (auto_save c) eqn:Ha; simpl; [done|].
    by rewrite app_nil_r.
  - rewrite on_del_clicked_run. destruct (current_uid c) as [uid|];
      [|split; [done|apply Hclose]].
    simpl.
    match goal with
    | |- context [create_sent_select_subpanel_text_part ?c0] =>
        destruct (refresh_frame c0) as (_ & -> & _ & -> & -> & _)
    end.
    destruct (auto_save c) eqn:Ha; simpl; [done|]. by rewrite app_nil_r.
  - rewrite add_tag_run.
    destruct (if uid_in uid (tags_df c) then _ else _) as [tmp|e];
      [|split; [done|apply Hclose]].
    rewrite do_auto_save_run. simpl.
    destruct (auto_save c) eqn:Ha; simpl; [by rewrite <- app_assoc|].
    by rewrite app_nil_r.
  - rewrite remove_tag_run. destruct (uid_in uid (tags_df c)).
    + destruct (first_cell uid (tags_df c)) as [cell|];
        [|split; [done|apply Hclose]].
      destruct (cell_remove tag cell) as [tmp|];
        [|split; [done|apply Hclose]].
      rewrite do_auto_save_run.
      destruct (cell_is_empty_list tmp); simpl;
        (destruct (auto_save c) eqn:Ha; simpl;
         [by rewrite <- app_assoc|by rewrite app_nil_r]).
    + rewrite do_auto_save_run. simpl.
      destruct (auto_save c) eqn:Ha; simpl; [by rewrite <- app_assoc|].
      by rewrite app_nil_r.
  - rewrite on_next_clicked_run.
    match goal with
    | |- context [set_current_variables ?i ?c0] =>
        destruct (set_current_variables_frame i c0) as (_ & _ & _ & -> & -> & _)
    end.
    simpl. by rewrite app_nil_r.
  - rewrite on_prev_clicked_run.
    match goal with
    | |- context [set_current_variables ?i ?c0] =>
        destruct (set_current_variables_frame i c0) as (_ & _ & _ & -> & -> & _)
    end.
    simpl. by rewrite app_nil_r.
  - unfold on_save_clicked, save_all, save_label_data, save_tags_data. run_M.
    by rewrite <- app_assoc.
Qed.

(** With [auto_save] on, the writes of an action bring both files to the
    tables the action leaves. *)
Lemma after_files_autosave a c :
  auto_save c = true →
  ∃ ws, writes (after a c) = writes c ++ ws ∧
        label_file_after (sentiment_df c) ws = sentiment_df (after a c) ∧
        tags_file_after (tags_df c) ws = tags_df (after a c).
Proof.
  intros Ha. destruct (after_writes a c) as [_ Hw]. rewrite Ha in Hw.
  eexists. split; [exact Hw|].
  pose proof (after_sentiment_df a c) as Hs.
  pose proof (after_tags_df a c) as Ht.
  remember (sentiment_event_of a c) as ev eqn:Ev.
  destruct a as [v| |uid tag|uid tag| | |]; simpl in Hs, Ht |- *.
  - destruct ev; (split; [|exact (eq_sym Ht)]); [reflexivity|exact (eq_sym Hs)].
  - destruct ev; (split; [|exact (eq_sym Ht)]); [reflexivity|exact (eq_sym Hs)].
  - subst ev. simpl in Hs. rewrite Hs.
    destruct (add_tag uid tag c) as [[[]|e] c'] eqn:E; simpl in *; [done|].
    rewrite add_tag_run in E.
    destruct (if uid_in uid (tags_df c) then _ else _) as [tmp|e'];
      [by rewrite do_auto_save_run in E|].
    by injection E as _ <-.
  - subst ev. simpl in Hs. rewrite Hs.
    destruct (remove_tag uid tag c) as [[[]|e] c'] eqn:E; simpl in *; [done|].
    rewrite remove_tag_run in E. destruct (uid_in uid (tags_df c)).
    + destruct (first_cell uid (tags_df c)) as [cell|]; [|by injection E as _ <-].
      destruct (cell_remove tag cell) as [tmp|]; [|by injection E as _ <-].
      by rewrite do_auto_save_run in E.
    + by rewrite do_auto_save_run in E.
  - subst ev. simpl in Hs. by rewrite Hs, Ht.
  - subst ev. simpl in Hs. by rewrite Hs, Ht.
  - split; reflexivity.
Qed.

(** X13. With [auto_save] on and the two files holding the two tables at
    the start (as right after construction), they hold them in every state
    reached by any sequence of actions: whatever an action changes in a
    table is in the file when the action is over, and the flag stays on. *)
Theorem autosave_keeps_files_in_sync c0 label_before tags_before :
  auto_save c0 = true →
  label_file_after label_before (writes c0) = sentiment_df c0 →
  tags_file_after tags_before (writes c0) = tags_df c0 →
  ∀ c, reachable c0 c →
    auto_save c = true ∧
    label_file_after label_before (writes c) = sentiment_df c ∧
    tags_file_after tags_before (writes c) = tags_df c.
Proof.
  intros Ha Hl Ht c Hc. induction Hc as [|c a Hc (IHa & IHl & IHt)]; [done|].
  destruct (after_writes a c) as [Hflag _].
  destruct (after_files_autosave a c IHa) as (ws & Hw & Hls & Hts).
  split; [congruence|].
  rewrite Hw, label_file_after_app, tags_file_after_app, IHl, IHt. done.
Qed.

(** X14. With [auto_save] off, no sequence of actions without the save
    button writes a file, whatever it does to the tables.  The save button
    writes the sentiment table and then the tags table, as they are, with
    the flag on or off, and changes nothing else. *)
Theorem only_save_writes_without_autosave c :
  (auto_save c = false →
   ∀ acts, Save ∉ acts → writes (run acts c) = writes c) ∧
  after Save c = log_write (WriteTags (tags_df c))
                   (log_write (WriteLabels (sentiment_df c)) c).
Proof.
  split; [|done].
  intros Ha acts. revert c Ha. induction acts as [|a acts IH]; intros c Ha Hn;
    simpl; [done|].
  apply not_elem_of_cons in Hn as [Hne Hn].
  destruct (after_writes a c) as [Hflag Hw]. rewrite Ha in *.
  rewrite IH by done. rewrite Hw.
  destruct a; try apply app_nil_r. done.
Qed.
End FileFacts.

(** ** The tags file, when the ids come back as written *)

Section TagsFileShape.
Context {U : Type}.
Variable uid_to_csv : U → string.
Variable read_uid_column : list string → list U.


End TagsFileShape.

(** ** Highlighting with a literal pattern *)

Lemma find_from_None p s i :
  find_from p s i = None ↔ str_contains p s = false.
Proof.
  revert i. induction s as [|a s IH]; intros i; simpl.
  - destruct (str_starts_with p EmptyString); simpl; split; done.
  - destruct (str_starts_with p (String a s)); simpl; [split; done|]. apply IH.
Qed.

(** X16. For a literal pattern that is not empty: the method returns on
    every text, given a recursion depth above the text's length; and a text
    in which the pattern does not occur comes back unchanged. *)
Theorem literal_formatting_returns color p str :
  p ≠ EmptyString →
  (∀ depth, (String.length str < depth)%nat →
     ∃ out, add_match_formatting depth color (literal p) str = Ok out) ∧
  (str_contains p str = false →
   ∀ depth, add_match_formatting (S depth) color (literal p) str = Ok str).
Proof.
  intros Hp. split.
  - apply add_match_formatting_returns. intros s m_start m_end. unfold literal.
    destruct (find_from p s 0) as [i|]; [|done]. intros [= <- <-].
    destruct p; [done|]. simpl. lia.
  - intros Hn depth. simpl. unfold literal.
    by rewrite (proj2 (find_from_None p str 0) Hn).
Qed.

(** ** The government test *)

Lemma str_lower_app s1 s2 : str_lower (s1 +:+ s2) = str_lower s1 +:+ str_lower s2.
Proof. induction s1 as [|c s1 IH]; simpl; [done|]. by rewrite IH. Qed.

Lemma str_starts_with_app p s : str_starts_with p (p +:+ s) = true.
Proof.
  induction p as [|c p IH]; simpl; [done|]. by rewrite Ascii.eqb_refl.
Qed.

Lemma str_contains_app pre p suf : str_contains p (pre +:+ p +:+ suf) = true.
Proof.
  induction pre as [|c pre IH]; simpl.
  - destruct (p +:+ suf) eqn:E; simpl; rewrite <- E, str_starts_with_app; done.
  - rewrite IH. apply orb_true_r.
Qed.

(** X17. A post name in which "shadow" or "opposition" occurs, in any
    mix of capital and small letters and anywhere in the name, is not in
    government; nor is the missing post name, which reads [nan]. *)
Theorem opposition_post_not_in_gov pre w suf :
  str_lower w = "shadow" ∨ str_lower w = "opposition" →
  check_is_in_gov (pre +:+ w +:+ suf) = false ∧
  check_is_in_gov "nan" = false.
Proof.
  intros Hw. split; [|reflexivity].
  unfold check_is_in_gov, opp_post. rewrite !str_lower_app.
  destruct Hw as [-> | ->]; rewrite str_contains_app; simpl.
  - apply andb_false_r.
  - rewrite orb_true_r. apply andb_false_r.
Qed.

(** ** What the sentiment table can hold *)

Section SentimentRows.
Context {U : Type} `{EqDecision U}.
Implicit Types (c : client U) (a : action U).

Lemma iloc_elem {A} (l : list A) i x : iloc l i = Ok x → x ∈ l.
Proof.
  unfold iloc. destruct (_ && _); [|done].
  destruct (l !! _) as [y|] eqn:E; [|done]. intros [= <-].
  by apply list_elem_of_lookup_2 in E.
Qed.

(** No action changes the store. *)
Lemma after_text_df a c : text_df (after a c) = text_df c.
Proof.
  unfold after. destruct a as [v| |uid tag|uid tag| | |]; simpl.
  - unfold mbind, M_bind, mret, M_ret. rewrite sent_select_f_run.
    destruct (iloc (text_df c) (current_text_index c)) as [row|e]; [|done].
    destruct (truthy v); [|done]. simpl. by destruct (auto_save c).
  - rewrite on_del_clicked_run. destruct (current_uid c) as [uid|]; [|done].
    simpl.
    match goal with
    | |- context [create_sent_select_subpanel_text_part ?c0] =>
        destruct (refresh_frame c0) as (-> & _)
    end.
    by destruct (auto_save c).
  - rewrite add_tag_run.
    destruct (if uid_in uid (tags_df c) then _ else _) as [tmp|e]; [|done].
    rewrite do_auto_save_run. simpl. by destruct (auto_save c).
  - rewrite remove_tag_run. destruct (uid_in uid (tags_df c)).
    + destruct (first_cell uid (tags_df c)) as [cell|]; [|done].
      destruct (cell_remove tag cell) as [tmp|]; [|done].
      rewrite do_auto_save_run.
      destruct (cell_is_empty_list tmp); simpl; by destruct (auto_save c).
    + rewrite do_auto_save_run. simpl. by destruct (auto_save c).
  - rewrite on_next_clicked_run.
    match goal with
    | |- context [set_current_variables ?i ?c0] =>
        by destruct (set_current_variables_frame i c0) as (-> & _)
    end.
  - rewrite on_prev_clicked_run.
    match goal with
    | |- context [set_current_variables ?i ?c0] =>
        by destruct (set_current_variables_frame i c0) as (-> & _)
    end.
  - done.
Qed.

Lemma elem_of_rows_ne {A} uid (r : U * A) (df : table U A) :
  r ∈ rows_ne uid df → r ∈ df.
Proof. unfold rows_ne. by intros [_ ?]%list_elem_of_filter. Qed.

(** X18. From a sentiment table whose rows all have the id of a record of
    the store and a value that Python takes for true (the empty table
    does), every state reached by any sequence of actions has such a
    table, on the same store.  So a constructor that reads that store and
    that table, as after saving and restarting, finds its start cursor
    without raising when no [start_index] is given. *)
Theorem sentiment_rows_valid c0 :
  (∀ uid v, (uid, v) ∈ sentiment_df c0 →
     uid ∈ (row_uid <$> text_df c0) ∧ truthy v = true) →
  ∀ c, reachable c0 c →
    text_df c = text_df c0 ∧
    (∀ uid v, (uid, v) ∈ sentiment_df c →
       uid ∈ (row_uid <$> text_df c0) ∧ truthy v = true) ∧
    ∀ tags_file autosave,
      ∃ c', init (text_df c0) (Some (sentiment_df c)) tags_file None autosave = Ok c'.
Proof.
  intros H0 c Hc.
  assert (Hinv : text_df c = text_df c0 ∧
                 ∀ uid v, (uid, v) ∈ sentiment_df c →
                   uid ∈ (row_uid <$> text_df c0) ∧ truthy v = true).
  { induction Hc as [|c a Hc [IHt IHs]]; [done|].
    split; [by rewrite after_text_df|].
    intros uid v. rewrite after_sentiment_df.
    destruct a as [w| |u t|u t| | |]; simpl; try apply IHs.
    - destruct (iloc (text_df c) (current_text_index c)) as [row|e] eqn:Hrow;
        [|apply IHs].
      destruct (truthy w) eqn:Hw; [|apply IHs]. simpl. unfold append_row.
      intros [Hin|Hin%list_elem_of_singleton]%elem_of_app.
      + by apply IHs, (elem_of_rows_ne (row_uid row)).
      + injection Hin as -> ->. split; [|done].
        apply list_elem_of_fmap. exists row. split; [done|].
        rewrite <- IHt. by apply iloc_elem in Hrow.
    - destruct (current_uid c) as [u|]; simpl; [|apply IHs].
      intros Hin. by apply IHs, (elem_of_rows_ne u). }
  destruct Hinv as [Ht Hs]. split; [done|]. split; [done|].
  intros tags_file autosave. rewrite init_without_start_index. simpl.
  destruct (last (sentiment_df c)) as [[u v]|] eqn:El; [|eauto].
  assert (Hu : u ∈ (row_uid <$> text_df c0)).
  { apply (Hs u v). apply last_Some in El as [l' ->].
    apply elem_of_app. right. by apply list_elem_of_singleton. }
  destruct (matching_index_present u 0 (text_df c0) Hu) as (i & rest & E).
  unfold find_text_index_by_uid. rewrite E. eauto.
Qed.
End SentimentRows.

(** * Further worked instances on the small store *)

Lemma check_tag_after_tag_call_witness :
  let c := demo_client false in
  tags_wf (tags_df c) ∧
  check_tag (after (AddTag "A" "return_later") c) "A" "return_later" = true ∧
  check_tag (after (RemoveTag "A" "return_later") c) "A" "return_later" = false ∧
  ∀ t, t ≠ "return_later" →
    check_tag (after (AddTag "A" "return_later") c) "A" t = check_tag c "A" t ∧
    check_tag (after (RemoveTag "A" "return_later") c) "A" t = check_tag c "A" t.
Proof.
  split; [apply tags_wf_nil|].
  apply (check_tag_after_tag_call "A" "return_later"), tags_wf_nil.
Defined.

Lemma tag_call_other_ids_witness :
  let c := after (AddTag "B" "not_rel") (demo_client false) in
  "B" ≠ "A" ∧
  check_tag (tag_call "A" (OpAdd "return_later") c).2 "B" "not_rel"
    = check_tag c "B" "not_rel".
Proof.
  split; [discriminate|].
  destruct (tag_call_other_ids "A" (OpAdd "return_later")
              (after (AddTag "B" "not_rel") (demo_client false))) as [_ Hother].
  apply Hother. discriminate.
Defined.

Lemma tag_call_twice_witness :
  let c := after (AddTag "A" "return_later") (demo_client false) in
  tags_wf (tags_df c) ∧
  tags_df (run [RemoveTag "A" "return_later"; RemoveTag "A" "return_later"] c)
    = tags_df (after (RemoveTag "A" "return_later") c).
Proof.
  assert (Hwf : tags_wf (tags_df (after (AddTag "A" "return_later") (demo_client false)))).
  { apply tags_wf_upsert; [apply tags_wf_nil|discriminate|apply NoDup_singleton]. }
  split; [exact Hwf|].
  destruct (tag_call_twice "A" "return_later"
              (after (AddTag "A" "return_later") (demo_client false))) as [_ Hrem].
  apply Hrem, Hwf.
Defined.

Lemma tags_wf_reachable_witness :
  let c := after (AddTag "A" "return_later") (demo_client false) in
  tags_wf (tags_df (demo_client false)) ∧
  reachable (demo_client false) c ∧
  tags_wf (tags_df c).
Proof.
  assert (Hr : reachable (demo_client false)
                 (after (AddTag "A" "return_later") (demo_client false)))
    by apply reachable_step, reachable_start.
  split; [apply tags_wf_nil|]. split; [exact Hr|].
  apply (tags_wf_reachable (demo_client false) tags_wf_nil _ Hr).
Defined.

Lemma tag_call_raise_unchanged_witness :
  let c := set_tags_df [("A", TagText "['return_later']")] (demo_client false) in
  (tag_call "A" (OpAdd "not_rel") c).1 = Raise AttributeError ∧
  AttributeError = AttributeError ∧
  (∃ s, first_cell "A" (tags_df c) = Some (TagText s)) ∧
  (tag_call "A" (OpAdd "not_rel") c).2 = c.
Proof.
  split; [reflexivity|].
  apply (tag_call_raise_unchanged "A" (OpAdd "not_rel")). reflexivity.
Defined.

Lemma tag_call_text_row_frozen_witness :
  let c := set_tags_df [("A", TagText "['return_later']")] (demo_client false) in
  first_cell "A" (tags_df c) = Some (TagText "['return_later']") ∧
  first_cell "A" (tags_df (tag_call "A" (OpRemove "not_rel") c).2)
    = Some (TagText "['return_later']").
Proof.
  split; [reflexivity|].
  apply (tag_call_text_row_frozen "A" (OpRemove "not_rel")). reflexivity.
Defined.

Lemma reset_then_read_witness :
  let c := run [SetSentiment (PyStr "positive")] (demo_client false) in
  let c := (create_sent_select_subpanel_text_part c).2 in
  current_uid c = Some "A" ∧
  iloc (text_df c) (current_text_index c) = Ok (mk_text_row "A" "first text") ∧
  (on_del_clicked c).1 = Ok tt ∧
  uid_in "A" (sentiment_df (after ClearSentiment c)) = false ∧
  current_sentiment (after ClearSentiment c) = None.
Proof.
  split; [reflexivity|]. split; [reflexivity|].
  destruct (reset_then_read
              (create_sent_select_subpanel_text_part
                 (run [SetSentiment (PyStr "positive")] (demo_client false))).2
              "A" (mk_text_row "A" "first text"))
    as (Hok & Hin & Hcur & _); [reflexivity..|].
  split; [exact Hok|]. split; [exact Hin|exact Hcur].
Defined.

Lemma set_sentiment_other_ids_witness :
  let c := run [SetSentiment (PyStr "positive"); Next] (demo_client false) in
  iloc (text_df c) (current_text_index c) = Ok (mk_text_row "B" "second text") ∧
  "A" ≠ "B" ∧
  first_cell "A" (sentiment_df (after (SetSentiment (PyStr "negative")) c))
    = first_cell "A" (sentiment_df c).
Proof.
  split; [reflexivity|]. split; [discriminate|].
  destruct (set_sentiment_other_ids
              (run [SetSentiment (PyStr "positive"); Next] (demo_client false))
              (PyStr "negative")) as [Hok _].
  destruct (Hok (mk_text_row "B" "second text")) as [_ Hother]; [reflexivity|].
  apply Hother. discriminate.
Defined.

Lemma refresh_reads_annotations_witness :
  let c := run [SetSentiment (PyStr "positive")] (demo_client false) in
  iloc (text_df c) 0 = Ok (mk_text_row "A" "first text") ∧
  NoDup (uid_column (sentiment_df c)) ∧
  ("A", PyStr "positive") ∈ sentiment_df c ∧
  current_sentiment (set_current_variables 0 c).2 = Some [PyStr "positive"].
Proof.
  assert (Hnd : NoDup (uid_column (sentiment_df
                  (run [SetSentiment (PyStr "positive")] (demo_client false)))))
    by apply NoDup_singleton.
  assert (Hin : ("A", PyStr "positive") ∈ sentiment_df
                  (run [SetSentiment (PyStr "positive")] (demo_client false)))
    by apply list_elem_of_here.
  split; [reflexivity|]. split; [exact Hnd|]. split; [exact Hin|].
  destruct (refresh_reads_annotations
              (run [SetSentiment (PyStr "positive")] (demo_client false))
              0 (mk_text_row "A" "first text")) as (_ & _ & Hread & _);
    [reflexivity|exact Hnd|].
  apply Hread, Hin.
Defined.


Lemma find_text_index_by_uid_present_witness :
  "B" ∈ (row_uid <$> demo_text) ∧
  ∃ i row, find_text_index_by_uid demo_text "B" = Ok i ∧
           iloc demo_text i = Ok row ∧ row_uid row = "B" ∧
           ∀ j, (j < Z.to_nat i)%nat → row_uid <$> demo_text !! j ≠ Some "B".
Proof.
  assert (Hin : "B" ∈ (row_uid <$> demo_text))
    by apply list_elem_of_further, list_elem_of_here.
  split; [exact Hin|].
  destruct (find_text_index_by_uid_present demo_text) as [Hfirst _].
  apply Hfirst, Hin.
Defined.

Lemma init_raises_iff_witness :
  init demo_text (Some [("Z", PyStr "positive")]) None None false
    = Raise IndexError.
Proof.
  apply (init_raises_iff demo_text (Some [("Z", PyStr "positive")]) None None false).
  split; [reflexivity|]. split; [reflexivity|].
  exists "Z", (PyStr "positive"). split; [reflexivity|].
  simpl. intros Hin.
  repeat (apply elem_of_cons in Hin as [Hin|Hin]; [discriminate|]).
  by apply elem_of_nil in Hin.
Defined.

Lemma autosave_keeps_files_in_sync_witness :
  let c0 := demo_client true in
  let c := after (SetSentiment (PyStr "positive")) c0 in
  auto_save c0 = true ∧
  label_file_after [] (writes c0) = sentiment_df c0 ∧
  tags_file_after [] (writes c0) = tags_df c0 ∧
  reachable c0 c ∧
  auto_save c = true ∧
  label_file_after [] (writes c) = sentiment_df c ∧
  tags_file_after [] (writes c) = tags_df c.
Proof.
  assert (Hr : reachable (demo_client true)
                 (after (SetSentiment (PyStr "positive")) (demo_client true)))
    by apply reachable_step, reachable_start.
  split; [reflexivity|]. split; [reflexivity|]. split; [reflexivity|].
  split; [exact Hr|].
  apply (autosave_keeps_files_in_sync (demo_client true) [] []);
    [reflexivity..|exact Hr].
Defined.

Lemma only_save_writes_without_autosave_witness :
  let c := demo_client false in
  let acts := [SetSentiment (PyStr "positive"); AddTag "A" "not_rel"; Next] in
  auto_save c = false ∧ (Save ∉ acts) ∧ writes (run acts c) = writes c.
Proof.
  assert (Hn : Save ∉ [SetSentiment (PyStr "positive"); AddTag "A" "not_rel";
                       @Next string]).
  { intros Hin.
    repeat (apply elem_of_cons in Hin as [Hin|Hin]; [discriminate|]).
    by apply elem_of_nil in Hin. }
  split; [reflexivity|]. split; [exact Hn|].
  destruct (only_save_writes_without_autosave (demo_client false)) as [Hoff _].
  apply Hoff; [reflexivity|exact Hn].
Defined.


Lemma literal_formatting_returns_witness :
  "foo" ≠ EmptyString ∧
  (String.length "a foo b" < 8)%nat ∧
  ∃ out, add_match_formatting 8 "blue" (literal "foo") "a foo b" = Ok out.
Proof.
  split; [discriminate|]. split; [simpl; lia|].
  destruct (literal_formatting_returns "blue" "foo" "a foo b") as [Hret _];
    [discriminate|].
  apply Hret. simpl. lia.
Defined.

Lemma opposition_post_not_in_gov_witness :
  str_lower "ShAdOw" = "shadow" ∧
  check_is_in_gov ("The " +:+ "ShAdOw" +:+ " Chancellor") = false.
Proof.
  split; [reflexivity|].
  destruct (opposition_post_not_in_gov "The " "ShAdOw" " Chancellor") as [Hopp _];
    [left; reflexivity|exact Hopp].
Defined.

Lemma sentiment_rows_valid_witness :
  let c0 := demo_client false in
  let c := after (SetSentiment (PyStr "positive")) c0 in
  (∀ uid v, (uid, v) ∈ sentiment_df c0 →
     uid ∈ (row_uid <$> text_df c0) ∧ truthy v = true) ∧
  reachable c0 c ∧
  text_df c = text_df c0 ∧
  (∀ uid v, (uid, v) ∈ sentiment_df c →
     uid ∈ (row_uid <$> text_df c0) ∧ truthy v = true) ∧
  ∀ tags_file autosave,
    ∃ c', init (text_df c0) (Some (sentiment_df c)) tags_file None autosave = Ok c'.
Proof.
  assert (H0 : ∀ uid v, (uid, v) ∈ sentiment_df (demo_client false) →
            uid ∈ (row_uid <$> text_df (demo_client false)) ∧ truthy v = true).
  { intros uid v Hin. by apply elem_of_nil in Hin. }
  assert (Hr : reachable (demo_client false)
                 (after (SetSentiment (PyStr "positive")) (demo_client false)))
    by apply reachable_step, reachable_start.
  split; [exact H0|]. split; [exact Hr|].
  apply (sentiment_rows_valid (demo_client false) H0 _ Hr).
Defined.
